(** * SeeingTheMusic: the audio visualiser of [audio_visualization.py]

    A shallow embedding of the numeric core of the script: spectral binning
    ([get_bin_average], [wav_to_bins]), [normalization_and_zooming], the
    emphasis detector [find_points], [ratio], the frame loop of
    [circle_mode] and the command-line driver.

    Numbers.  numpy's float64 values are idealised as real numbers together
    with one not-a-number value; rounding and overflow are not modelled.
    Python exceptions are the constructors of [exn]; a function that can
    raise returns a [result]. *)

From Stdlib Require Import String.
From Stdlib Require Import Reals Lra Lia ZArith Bool Arith List Sorted.
Import ListNotations.

Open Scope R_scope.

(** ** Exceptions and results *)

Inductive exn : Type :=
| ValueError
| IndexError
| ZeroDivisionError
| NameError
| AssertionError
| OSError.

Inductive result (A : Type) : Type :=
| Ok (a : A)
| Raise (e : exn).

Arguments Ok {A} a.
Arguments Raise {A} e.

Definition bind {A B : Type} (r : result A) (k : A -> result B) : result B :=
  match r with
  | Ok a => k a
  | Raise e => Raise e
  end.

Notation "x <- r ;; k" := (bind r (fun x => k))
  (at level 61, r at next level, right associativity).

(** ** float64 values *)

Inductive f64 : Type :=
| Num (r : R)
| NaN.

(** Comparisons: every comparison with nan is False. *)

Definition feqb (x y : f64) : bool :=
  match x, y with
  | Num a, Num b => if Req_dec_T a b then true else false
  | _, _ => false
  end.

Definition fltb (x y : f64) : bool :=
  match x, y with
  | Num a, Num b => if Rlt_dec a b then true else false
  | _, _ => false
  end.

(** [x >= y] *)
Definition fgeb (x y : f64) : bool :=
  match x, y with
  | Num a, Num b => if Rle_dec b a then true else false
  | _, _ => false
  end.

Definition fadd (x y : f64) : f64 :=
  match x, y with
  | Num a, Num b => Num (a + b)
  | _, _ => NaN
  end.

Definition fsub (x y : f64) : f64 :=
  match x, y with
  | Num a, Num b => Num (a - b)
  | _, _ => NaN
  end.

(** numpy division: [0/0] is nan (with a RuntimeWarning, no exception).
    [x/0] for a non-zero [x] is an infinity in numpy; there are no infinities
    here and that case is classed with nan. *)
Definition fdiv (x y : f64) : f64 :=
  match x, y with
  | Num a, Num b => if Req_dec_T b 0 then NaN else Num (a / b)
  | _, _ => NaN
  end.

(** [np.log]: nan below zero.  At zero numpy gives [-inf];
    [normalization_and_zooming] replaces every zero before it takes the
    logarithm, so that case is classed with nan as well. *)
Definition np_log (x : f64) : f64 :=
  match x with
  | Num a => if Rlt_dec 0 a then Num (ln a) else NaN
  | NaN => NaN
  end.

(** [np.amin] and [np.amax] propagate nan. *)
Definition fmin (x y : f64) : f64 :=
  match x, y with
  | Num a, Num b => Num (Rmin a b)
  | _, _ => NaN
  end.

Definition fmax (x y : f64) : f64 :=
  match x, y with
  | Num a, Num b => Num (Rmax a b)
  | _, _ => NaN
  end.

(** ** Two-dimensional arrays

    A numpy array of shape [(nrows, ncols)], kept as its list of rows.  The
    column count is stored, so that the shape [(0, k)] has a representative. *)

Record ndarray : Type := mk_ndarray {
  ncols : nat;
  rows : list (list f64)
}.

Definition nrows (a : ndarray) : nat := length (rows a).

Definition well_shaped (a : ndarray) : Prop :=
  Forall (fun r => length r = ncols a) (rows a).

(** The entries in row-major order. *)
Definition entries (a : ndarray) : list f64 := concat (rows a).

(** Elementwise operation. *)
Definition amap (f : f64 -> f64) (a : ndarray) : ndarray :=
  mk_ndarray (ncols a) (map (map f) (rows a)).

(** [a[mask(a)] = v]: masked assignment of a scalar. *)
Definition where_set (mask : f64 -> bool) (v : f64) (x : f64) : f64 :=
  if mask x then v else x.

(** Reductions over the whole array; a zero-size array raises ValueError. *)
Definition amin (a : ndarray) : result f64 :=
  match entries a with
  | [] => Raise ValueError
  | x :: l => Ok (fold_left fmin l x)
  end.

Definition amax (a : ndarray) : result f64 :=
  match entries a with
  | [] => Raise ValueError
  | x :: l => Ok (fold_left fmax l x)
  end.

(** [a[j, i]] for non-negative indices. *)
Definition aget (a : ndarray) (j i : nat) : result f64 :=
  if (j <? nrows a)%nat && (i <? ncols a)%nat
  then Ok (nth i (nth j (rows a) []) NaN)
  else Raise IndexError.

(** ** normalization_and_zooming (lines 77-97) *)

Definition is_zero (x : f64) : bool := feqb x (Num 0).

(** lines 87-88: zeros become 1, then the logarithm *)
Definition log_stage (bins : ndarray) : ndarray :=
  amap np_log (amap (where_set is_zero (Num 1)) bins).

(** line 90: entries whose logarithm is 0 are set to the minimum *)
Definition fill_stage (bins : ndarray) : result ndarray :=
  m <- amin bins ;;
  Ok (amap (where_set is_zero m) bins).

(** lines 91-92: shift the minimum to 0, scale by the maximum *)
Definition scale_stage (bins : ndarray) : result ndarray :=
  m <- amin bins ;;
  let bins := amap (fun x => fsub x m) bins in
  M <- amax bins ;;
  Ok (amap (fun x => fdiv x M) bins).

(** lines 94-96: clip below 0.25, subtract 0.25, scale by the maximum *)
Definition zoom_stage (bins : ndarray) : result ndarray :=
  let bins := amap (where_set (fun x => fltb x (Num (1/4))) (Num (1/4))) bins in
  let bins := amap (fun x => fsub x (Num (1/4))) bins in
  M <- amax bins ;;
  Ok (amap (fun x => fdiv x M) bins).

Definition normalization_and_zooming (bins : ndarray) : result ndarray :=
  filled <- fill_stage (log_stage bins) ;;
  normalized <- scale_stage filled ;;
  zoom_stage normalized.

(** ** Lists the way Python indexes them *)

(** One bound of a slice [l[start:stop]] over a sequence of length [n]: a
    negative bound counts from the end, and both are clamped to [0..n]. *)
Definition py_slice_index (n k : Z) : Z :=
  if (k <? 0)%Z then Z.max 0 (k + n) else Z.min k n.

Definition py_slice {A : Type} (l : list A) (start stop : Z) : list A :=
  let n := Z.of_nat (length l) in
  let a := py_slice_index n start in
  let b := py_slice_index n stop in
  firstn (Z.to_nat (b - a)) (skipn (Z.to_nat a) l).

Definition count {A : Type} (p : A -> bool) (l : list A) : Z :=
  Z.of_nat (length (filter p l)).

Fixpoint map_result {A B : Type} (f : A -> result B) (l : list A)
  : result (list B) :=
  match l with
  | [] => Ok []
  | x :: l' =>
      y <- f x ;;
      ys <- map_result f l' ;;
      Ok (y :: ys)
  end.

(** ** Module-level names

    The names bound at module level by the [__main__] block; [None] is a
    name that has not been assigned. *)

Record globals : Type := mk_globals {
  g_bins0 : option ndarray;
  g_bins1 : option ndarray;
  g_mono : option Z;
  g_color_changing : option Z;
  g_circle_width : option Z
}.

(** ** find_points (lines 100-118) *)

Definition fsum (l : list f64) : f64 := fold_left fadd l (Num 0).

(** [np.average(a, axis=0)]: the mean of every column. *)
Definition np_average_axis0 (a : ndarray) : list f64 :=
  map (fun c => fdiv (fsum (map (fun r => nth c r NaN) (rows a)))
                     (Num (INR (nrows a))))
      (seq 0 (ncols a)).

Definition Rle_bool (a b : R) : bool :=
  if Rle_dec a b then true else false.

(** The body of the loop for one [i] (lines 110-116): [Ok true] when [i] is
    appended to [keep].  [num_geq] and the window length are Python ints, so
    a window of exactly one frame divides by zero. *)
Definition emphasis_step (test1 : list f64) (threshold : R) (horizon : Z)
    (i : nat) : result bool :=
  let n := Z.of_nat (length test1) in
  let neighbors :=
    py_slice test1 (Z.max 0 (Z.of_nat i - horizon))
                   (Z.min n (Z.of_nat i + horizon + 1)) in
  let num_geq := count (fun neighbor => fgeb neighbor (nth i test1 NaN)) neighbors in
  let den := (Z.of_nat (length neighbors) - 1)%Z in
  if (den =? 0)%Z then Raise ZeroDivisionError
  else Ok (Rle_bool threshold (IZR (num_geq - 1) / IZR den)).

Fixpoint emphasis_loop (test1 : list f64) (threshold : R) (horizon : Z)
    (frames : list nat) (keep : list nat) : result (list nat) :=
  match frames with
  | [] => Ok keep
  | i :: frames' =>
      flag <- emphasis_step test1 threshold horizon i ;;
      emphasis_loop test1 threshold horizon frames'
                    (if flag then keep ++ [i] else keep)
  end.

(** [find_points] has no array parameter: [bins0] is looked up at module
    level when line 107 runs. *)
Definition find_points (g : globals) (threshold : R) (horizon : Z)
  : result (list nat) :=
  match g_bins0 g with
  | None => Raise NameError
  | Some bins0 =>
      let test1 := np_average_axis0 bins0 in
      emphasis_loop test1 threshold horizon (seq 0 (length test1)) []
  end.

(** ** ratio (lines 142-149)

    Its only call site (line 189) passes numpy scalars, so the division is
    numpy's. *)
Definition ratio (a b : f64) : f64 := fdiv b (fadd a b).

(** ** circle_mode (lines 152-203) *)

Definition rgb : Type := (R * R * R)%type.

Record circle : Type := mk_circle {
  center_x : f64;
  center_y : f64;
  radius : f64;
  edge_color : string;
  line_width : Z
}.

(** What [camera.snap()] records for one frame. *)
Record frame : Type := mk_frame {
  background : rgb;
  circles : list circle
}.

Definition colors : list string :=
  ["magenta"; "yellow"; "cyan"; "red"; "green"; "blue"]%string.

Definition decay (color : rgb) : rgb :=
  let '(r, g, b) := color in (r * (9/10), g * (9/10), b * (9/10)).

(** lines 182-190: the rings of frame [i] *)
Definition frame_circles (bins0 : ndarray) (bins1 : option ndarray)
    (circle_width : Z) (i : nat) : result (list circle) :=
  map_result
    (fun j =>
       let c := nth (j mod length colors) colors EmptyString in
       match bins1 with
       | None =>
           x <- aget bins0 j i ;;
           Ok (mk_circle (Num (1/2)) (Num (1/2)) (fdiv x (Num 2)) c circle_width)
       | Some bins1 =>
           x <- aget bins0 j i ;;
           y <- aget bins1 j i ;;
           Ok (mk_circle (ratio x y) (Num (1/2)) (fdiv (fadd x y) (Num 4))
                         c circle_width)
       end)
    (seq 0 (nrows bins0)).

Definition mem_nat (i : nat) (l : list nat) : bool := existsb (Nat.eqb i) l.

Section Rendering.

(** [random.random()]: the [k]-th call of a run returns [random_random k]. *)
Variable random_random : nat -> R.

(** lines 175-198.  The state carried round the loop is the current
    [color] and the number of calls of [random.random()] made so far; the
    frames snapped so far are accumulated in [snapped]. *)
Fixpoint frame_loop (bins0 : ndarray) (bins1 : option ndarray)
    (color_changing : bool) (points : list nat) (circle_width : Z)
    (frames : list nat) (color : rgb) (calls : nat) (snapped : list frame)
  : result (list frame) :=
  match frames with
  | [] => Ok snapped
  | i :: frames' =>
      let '(color, calls) :=
        if color_changing then
          if mem_nat i points
          then ((random_random calls, random_random (calls + 1),
                 random_random (calls + 2)), (calls + 3)%nat)
          else (decay color, calls)
        else (color, calls) in
      cs <- frame_circles bins0 bins1 circle_width i ;;
      frame_loop bins0 bins1 color_changing points circle_width frames'
                 color calls (snapped ++ [mk_frame color cs])
  end.

(** [color_changing] is compared with [True]; the integers 1 and 0 of the
    command line compare equal to [True] and [False].  The writing of the
    video file is outside the model: the result is the list of frames
    handed to the encoder. *)
Definition circle_mode (g : globals) (bins0 : ndarray)
    (bins1 : option ndarray) (color_changing : bool) (circle_width : Z)
  : result (list frame) :=
  points <- (if color_changing then find_points g (27/30) 7 else Ok []) ;;
  frame_loop bins0 bins1 color_changing points circle_width
             (seq 0 (ncols bins0)) (1, 1, 1) 0 [].

End Rendering.

(** ** get_bin_average and wav_to_bins (lines 17-74) *)

(** A complex number of the spectrogram, as real and imaginary part. *)
Definition complex : Type := (R * R)%type.

Record spectrogram : Type := mk_spectrogram {
  sg_ncols : nat;
  sg_rows : list (list complex)
}.

(** What [scipy.io.wavfile.read] returns as [data]: a one-dimensional array
    for a file with one channel, otherwise an array of shape
    [(samples, channels)]. *)
Inductive wavdata : Type :=
| Data1D (samples : list R)
| Data2D (channels : nat) (samples : list (list R)).

(** [data[:, k]] *)
Definition channel (data : wavdata) (k : nat) : result (list R) :=
  match data with
  | Data1D _ => Raise IndexError
  | Data2D channels samples =>
      if (k <? channels)%nat
      then Ok (map (fun s => nth k s 0) samples)
      else Raise IndexError
  end.

Definition csum (l : list complex) : complex :=
  fold_left (fun acc z => (fst acc + fst z, snd acc + snd z)) l (0, 0).

(** [np.average] of the rows [bin_start:bin_end] of one column; the average
    of an empty range is nan ([None]). *)
Definition get_bin_average (column_no : nat) (bin_start bin_end : Z)
    (Zxx : spectrogram) : option complex :=
  let col := map (fun r => nth column_no r (0, 0))
                 (py_slice (sg_rows Zxx) bin_start bin_end) in
  match col with
  | [] => None
  | _ :: _ =>
      let s := csum col in
      Some (fst s / INR (length col), snd s / INR (length col))
  end.

(** [np.abs] of a complex value *)
Definition np_abs (z : option complex) : f64 :=
  match z with
  | Some (re, im) => Num (sqrt (re * re + im * im))
  | None => NaN
  end.

(** lines 44-46: one trailing column of zeros, then the rows reversed *)
Definition pad_and_flip (Zxx : spectrogram) : spectrogram :=
  mk_spectrogram (sg_ncols Zxx + 1)
                 (rev (map (fun r => r ++ [(0, 0)]) (sg_rows Zxx))).

(** lines 48-54 (and 63-69): the bins of one channel.  [np.zeros] refuses
    the negative row count that an empty [bin_boundaries] gives. *)
Definition channel_bins (Zxx : spectrogram) (bin_boundaries : list Z)
  : result ndarray :=
  match bin_boundaries with
  | [] => Raise ValueError
  | _ :: _ =>
      let bins :=
        mk_ndarray (sg_ncols Zxx)
          (map (fun i =>
                  map (fun column =>
                         np_abs (get_bin_average column
                                   (nth i bin_boundaries 0%Z)
                                   (nth (i + 1) bin_boundaries 0%Z) Zxx))
                      (seq 0 (sg_ncols Zxx)))
               (seq 0 (length bin_boundaries - 1))) in
      normalization_and_zooming bins
  end.

(** The value [wav_to_bins] returns: a tuple of two arrays, or one array. *)
Inductive bins_value : Type :=
| Pair (bins0 bins1 : ndarray)
| Single (bins0 : ndarray).

Section Pipeline.

(** [scipy.io.wavfile.read]: the sampling rate and the samples. *)
Variable read_wav : string -> result (Z * wavdata).

(** The third component of [scipy.signal.stft] with the window, segment
    length and overlap of lines 42-43, for a sampling rate and one
    channel. *)
Variable stft : Z -> list R -> spectrogram.

(** [int(s)] on a string. *)
Variable py_int : string -> result Z.

Variable random_random : nat -> R.

(** [mono] is compared with [False]: 0 and [False] compare equal. *)
Definition wav_to_bins (filename : string) (mono : Z)
    (bin_boundaries : list Z) : result bins_value :=
  rd <- read_wav filename ;;
  let '(rate, data) := rd in
  ch0 <- channel data 0 ;;
  let Zxx0 := pad_and_flip (stft rate ch0) in
  bins0 <- channel_bins Zxx0 bin_boundaries ;;
  if (mono =? 0)%Z then
    ch1 <- channel data 1 ;;
    let Zxx1 := pad_and_flip (stft rate ch1) in
    bins1 <- channel_bins Zxx1 bin_boundaries ;;
    Ok (Pair bins0 bins1)
  else Ok (Single bins0).

(** ** The [__main__] block (lines 223-242) *)

(** What a two-target unpacking binds: an array of two dimensions, or one
    row of it. *)
Inductive unpacked : Type :=
| Arr2 (a : ndarray)
| Arr1 (row : list f64).

(** [bins0, bins1 = v]: a tuple gives its two components; an array is
    iterated over its first axis and must have exactly two rows. *)
Definition unpack2 (v : bins_value) : result (unpacked * unpacked) :=
  match v with
  | Pair bins0 bins1 => Ok (Arr2 bins0, Arr2 bins1)
  | Single a =>
      match rows a with
      | [r0; r1] => Ok (Arr1 r0, Arr1 r1)
      | _ => Raise ValueError
      end
  end.

Definition py_assert (b : bool) : result unit :=
  if b then Ok tt else Raise AssertionError.

(** [s[-4:]] *)
Definition last4 (s : string) : string :=
  substring (String.length s - 4) 4 s.

Definition arg (args : list string) (k : nat) : string :=
  nth k args EmptyString.

Definition is_flag (s : string) : bool :=
  String.eqb s "0" || String.eqb s "1".

(** [int] of a string already asserted to be "0" or "1" *)
Definition flag_value (s : string) : Z :=
  if String.eqb s "1" then 1%Z else 0%Z.

(** [args] is [sys.argv].  The result is the list of frames rendered by
    [circle_mode]; adding the audio track (line 242) is outside the
    model.  One-dimensional [bins0] (an array of two rows unpacked) has no
    [shape[1]], and its column average has no [shape[0]]: IndexError on
    either path. *)
Definition main (args : list string) : result (list frame) :=
  _ <- py_assert ((length args =? 6)%nat || (length args =? 7)%nat) ;;
  _ <- py_assert (String.eqb (last4 (arg args 1)) ".wav") ;;
  _ <- py_assert (is_flag (arg args 2)) ;;
  _ <- py_assert (String.eqb (last4 (arg args 3)) ".mp4") ;;
  _ <- py_assert (String.eqb (last4 (arg args 4)) ".mp4") ;;
  _ <- py_assert (is_flag (arg args 5)) ;;
  let input_audio_filename := arg args 1 in
  let mono := flag_value (arg args 2) in
  let color_changing := flag_value (arg args 5) in
  circle_width <- (if (length args =? 6)%nat then Ok 15%Z
                   else py_int (arg args 6)) ;;
  v <- wav_to_bins input_audio_filename mono [4; 37; 93; 371]%Z ;;
  u <- unpack2 v ;;
  match u with
  | (Arr2 bins0, Arr2 bins1) =>
      let g := mk_globals (Some bins0) (Some bins1) (Some mono)
                          (Some color_changing) (Some circle_width) in
      circle_mode random_random g bins0 (Some bins1)
                  (color_changing =? 1)%Z circle_width
  | _ => Raise IndexError
  end.

End Pipeline.

(** ** Definitions used to state the properties *)

(** Every entry is a finite, non-negative number: what [np.abs] of a
    non-empty average gives. *)
Definition nonneg_finite (a : ndarray) : Prop :=
  Forall (fun x => exists r, x = Num r /\ 0 <= r) (entries a).

(** The zoom on one normalised value: clipped at the floor 0.25, shifted by
    it and scaled by the remaining range 0.75. *)
Definition clip_rescale (x : f64) : f64 :=
  match x with
  | Num v => Num ((Rmax v (1/4) - 1/4) / (3/4))
  | NaN => NaN
  end.

(** An array of the same shape with nan in every entry. *)
Definition nan_like (a : ndarray) : ndarray := amap (fun _ => NaN) a.

(** *** The emphasis detector, in the words of its description *)

Definition finite (x : f64) : Prop := exists r, x = Num r.

(** The frames [i - horizon .. i + horizon], clipped to [0 .. n - 1]. *)
Definition window_frames (n : nat) (horizon : Z) (i : nat) : list nat :=
  let lo := Z.to_nat (Z.max 0 (Z.of_nat i - horizon)) in
  let hi := Z.to_nat (Z.min (Z.of_nat n - 1) (Z.of_nat i + horizon)) in
  seq lo (hi + 1 - lo).

(** Frame [j] is at least as loud as frame [i]. *)
Definition geq_at (curve : list f64) (i j : nat) : bool :=
  fgeb (nth j curve NaN) (nth i curve NaN).


(** The same fraction among the other frames of the window. *)
Definition fraction_of_others (curve : list f64) (horizon : Z) (i : nat) : R :=
  let w := filter (fun j => negb (j =? i)%nat)
                  (window_frames (length curve) horizon i) in
  INR (length (filter (geq_at curve i) w)) / INR (length w).

(** A curve that rises strictly from frame to frame. *)
Definition strictly_increasing (curve : list f64) : Prop :=
  forall j k a b, (j < k)%nat ->
    nth_error curve j = Some (Num a) -> nth_error curve k = Some (Num b) ->
    a < b.

(** Whether the loop body appends frame [i] (False when it raises). *)
Definition flagged (curve : list f64) (threshold : R) (horizon : Z) (i : nat)
  : bool :=
  match emphasis_step curve threshold horizon i with
  | Ok b => b
  | Raise _ => false
  end.

(** The mean over the bands of frame [c], band by band. *)
Definition band_mean (a : ndarray) (c : nat) : f64 :=
  fdiv (fold_right (fun j acc => fadd (nth c (nth j (rows a) []) NaN) acc)
                   (Num 0) (seq 0 (nrows a)))
       (Num (INR (nrows a))).

(** *** The background colour, in the words of its description *)

Definition blank : frame := mk_frame (1, 1, 1) [].


(** The number of emphasis points among the frames [s .. s + d - 1]. *)
Definition points_among (points : list nat) (s d : nat) : nat :=
  length (filter (fun j => mem_nat j points) (seq s d)).

(** Three consecutive results of [random.random()], from call [k] on. *)
Definition fresh_color (random_random : nat -> R) (k : nat) : rgb :=
  (random_random k, random_random (k + 1)%nat, random_random (k + 2)%nat).

(** *** The driver *)

(** The arrays held by a value returned by [wav_to_bins]. *)
Definition arrays_of (v : bins_value) : list ndarray :=
  match v with
  | Pair bins0 bins1 => [bins0; bins1]
  | Single bins0 => [bins0]
  end.

(** *** Concrete inputs *)

(** One band, two frames: silence, then magnitude 0.5. *)
Definition two_levels : ndarray := mk_ndarray 2 [[Num 0; Num (1/2)]].

(** One band, two frames, magnitudes 1 and 2. *)
Definition two_tones : ndarray := mk_ndarray 2 [[Num 1; Num 2]].

(** One band over two frames, rising from 0 to 1. *)
Definition step_bins : ndarray := mk_ndarray 2 [[Num 0; Num 1]].

(** One band over three frames: the ramp 0, 0.5, 1. *)
Definition ramp_bins : ndarray := mk_ndarray 3 [[Num 0; Num (1/2); Num 1]].

(** One band over a single frame. *)
Definition one_frame : ndarray := mk_ndarray 1 [[Num 1]].

(** Module-level names with [bins0] bound and nothing else. *)
Definition only_bins0 (a : ndarray) : globals :=
  mk_globals (Some a) None None None None.

(** A stand-in for the random generator: call [k] returns [k / 10]. *)
Definition tenths (k : nat) : R := INR k / 10.

(** The two frames rendered for [step_bins] alone when frame 0 is the only
    emphasis point. *)
Definition step_frames : list frame :=
  [ mk_frame (fresh_color tenths 0)
      [mk_circle (Num (1/2)) (Num (1/2)) (fdiv (Num 0) (Num 2)) "magenta" 15];
    mk_frame (decay (fresh_color tenths 0))
      [mk_circle (Num (1/2)) (Num (1/2)) (fdiv (Num 1) (Num 2)) "magenta" 15] ].

(** The single frame rendered for [one_frame] on the left and [step_bins] on
    the right. *)
Definition truncated_frames : list frame :=
  [ mk_frame (1, 1, 1)
      [mk_circle (ratio (Num 1) (Num 0)) (Num (1/2))
                 (fdiv (fadd (Num 1) (Num 0)) (Num 4)) "magenta" 15] ].

(** Stand-ins for the libraries: a decoder that finds two samples of a
    stereo file, one that finds two samples of a file with one channel, a
    transform with 372 frequency rows and one column per sample, and an
    [int] never called. *)
Definition stereo_file (filename : string) : result (Z * wavdata) :=
  Ok (44100%Z, Data2D 2 [[0; 0]; [1; -1]]).

Definition single_channel_file (filename : string) : result (Z * wavdata) :=
  Ok (44100%Z, Data1D [0; 1]).

Definition toy_stft (rate : Z) (samples : list R) : spectrogram :=
  mk_spectrogram (length samples)
                 (repeat (map (fun x => (x, 0)) samples) 372).

Definition no_int (s : string) : result Z := Raise ValueError.

(** A command line that asks for mono mode. *)
Definition mono_args : list string :=
  ["audio_visualization.py"; "song.wav"; "1"; "silent.mp4"; "final.mp4"; "0"]%string.

(** *** Further definitions for the normalisation *)

(** A real function applied to the finite entries. *)
Definition on_finite (F : R -> R) (x : f64) : f64 :=
  match x with
  | Num r => Num (F r)
  | NaN => NaN
  end.

(** Lines 87-88 on one finite magnitude. *)
Definition log_magnitude (r : R) : R := ln (if Req_dec_T r 0 then 1 else r).

(** Line 90 on one logarithm, [m] being the minimum. *)
Definition fill_level (m l : R) : R := if Req_dec_T l 0 then m else l.

(** Lines 87-96 on one finite magnitude of an array whose logarithms run
    from [m] to [M]. *)
Definition normalized_level (m M r : R) : R :=
  (Rmax ((fill_level m (log_magnitude r) - m) / (M - m)) (1/4) - 1/4) / (3/4).

(** An array of shape (0, 5). *)
Definition no_bands : ndarray := mk_ndarray 5 [].

(** One band, three frames: a negative entry among magnitudes. *)
Definition with_negative : ndarray := mk_ndarray 3 [[Num 1; Num (-1); Num 2]].

(** Two bands, two frames, magnitudes 0, 1 and 0.5 only. *)
Definition three_levels : ndarray :=
  mk_ndarray 2 [[Num 0; Num (1/2)]; [Num 1; Num (1/2)]].

(** *** Further concrete inputs *)

(** One band over three frames of the same value. *)
Definition flat_bins : ndarray := mk_ndarray 3 [[Num (1/2); Num (1/2); Num (1/2)]].

(** *** Further definitions for the frames *)

(** The entry in row [j] and column [i]. *)
Definition entry (a : ndarray) (j i : nat) : f64 :=
  nth i (nth j (rows a) []) NaN.

Definition ring_color (j : nat) : string :=
  nth (j mod length colors) colors EmptyString.

(** The ring of band [j] in frame [i] with one array: centred, the radius
    half the bin value. *)
Definition mono_ring (bins0 : ndarray) (circle_width : Z) (i j : nat) : circle :=
  mk_circle (Num (1/2)) (Num (1/2)) (fdiv (entry bins0 j i) (Num 2))
            (ring_color j) circle_width.

(** The ring of band [j] in frame [i] with two arrays: placed at the
    balance point, the radius a quarter of the two bin values together. *)
Definition stereo_ring (bins0 bins1 : ndarray) (circle_width : Z) (i j : nat)
  : circle :=
  mk_circle (ratio (entry bins0 j i) (entry bins1 j i)) (Num (1/2))
            (fdiv (fadd (entry bins0 j i) (entry bins1 j i)) (Num 4))
            (ring_color j) circle_width.

(** A colour with every component multiplied by [c]. *)
Definition scale_color (c : R) (color : rgb) : rgb :=
  let '(r, g, b) := color in (c * r, c * g, c * b).

(** Every component of the colour lies between 0 and 1. *)
Definition unit_color (color : rgb) : Prop :=
  let '(r, g, b) := color in 0 <= r <= 1 /\ 0 <= g <= 1 /\ 0 <= b <= 1.

(** A stand-in for the random generator that always returns 0.5. *)
Definition halves (k : nat) : R := 1/2.

(** The frame rendered for [one_frame] alone. *)
Definition white_frame : list frame :=
  [ mk_frame (1, 1, 1)
      [mk_circle (Num (1/2)) (Num (1/2)) (fdiv (Num 1) (Num 2)) "magenta" 15] ].

(** *** Further definitions for the binner and the driver *)

(** A spectrogram of two frequency rows and one column. *)
Definition small_spectrogram : spectrogram :=
  mk_spectrogram 1 [[(3, 4)]; [(0, 0)]].

(** The checks of lines 225-230 on the command line. *)
Definition accepted (args : list string) : bool :=
  ((length args =? 6)%nat || (length args =? 7)%nat)
  && String.eqb (last4 (arg args 1)) ".wav"
  && is_flag (arg args 2)
  && String.eqb (last4 (arg args 3)) ".mp4"
  && String.eqb (last4 (arg args 4)) ".mp4"
  && is_flag (arg args 5).

(** A command line that asks for stereo mode without colour changing. *)
Definition stereo_args : list string :=
  ["audio_visualization.py"; "song.wav"; "0"; "silent.mp4"; "final.mp4"; "0"]%string.

(** Lines 48-52: the magnitudes of every band in every column, before
    [normalization_and_zooming]. *)
Definition raw_bins (Zxx : spectrogram) (bin_boundaries : list Z) : ndarray :=
  mk_ndarray (sg_ncols Zxx)
    (map (fun i =>
            map (fun column =>
                   np_abs (get_bin_average column
                             (nth i bin_boundaries 0%Z)
                             (nth (i + 1) bin_boundaries 0%Z) Zxx))
                (seq 0 (sg_ncols Zxx)))
         (seq 0 (length bin_boundaries - 1))).

(** A stand-in transform without frequency rows, one column per sample. *)
Definition rowless_stft (rate : Z) (samples : list R) : spectrogram :=
  mk_spectrogram (length samples) [].

(** The three frames rendered from [stereo_file] through [rowless_stft]:
    every band is empty, every bin nan. *)
Definition nan_frames : list frame :=
  map (fun _ : nat =>
         mk_frame (1, 1, 1)
           (map (fun j => mk_circle NaN (Num (1/2)) NaN (ring_color j) 15)
                (seq 0 3)))
      (seq 0 3).

(** A spectrogram of two frequency rows and one column, the upper row
    silent. *)
Definition tone_spectrogram : spectrogram :=
  mk_spectrogram 1 [[(2, 0)]; [(0, 0)]].

(** A spectrogram of two frequency rows and two columns, silent. *)
Definition silent_spectrogram : spectrogram :=
  mk_spectrogram 2 [[(0, 0); (0, 0)]; [(0, 0); (0, 0)]].

(** Every boundary pair encloses at least one row of the spectrogram. *)
Definition bands_in_range (Zxx : spectrogram) (bin_boundaries : list Z) : Prop :=
  forall i, (i + 1 < length bin_boundaries)%nat ->
    (0 <= nth i bin_boundaries 0 < nth (i + 1) bin_boundaries 0)%Z /\
    (nth i bin_boundaries 0 < Z.of_nat (length (sg_rows Zxx)))%Z.

(** Every row of the spectrogram has its number of columns. *)
Definition rectangular (Zxx : spectrogram) : Prop :=
  Forall (fun r => length r = sg_ncols Zxx) (sg_rows Zxx).

(** * Properties *)

(** ** Reductions over lists of finite numbers *)

Lemma fold_fmin_num (l : list R) (x : R) :
  fold_left fmin (map Num l) (Num x) = Num (fold_left Rmin l x).
Proof.
  revert x; induction l as [|y l IH]; intro x; simpl; [reflexivity|apply IH].
Qed.

Lemma fold_fmax_num (l : list R) (x : R) :
  fold_left fmax (map Num l) (Num x) = Num (fold_left Rmax l x).
Proof.
  revert x; induction l as [|y l IH]; intro x; simpl; [reflexivity|apply IH].
Qed.

Lemma fold_Rmin_le (l : list R) (x y : R) :
  In y (x :: l) -> fold_left Rmin l x <= y.
Proof.
  revert x y; induction l as [|z l IH]; intros x y H; simpl in *.
  - destruct H as [->|[]]; lra.
  - destruct H as [->|[->|H]].
    + apply Rle_trans with (Rmin y z); [apply IH; now left | apply Rmin_l].
    + apply Rle_trans with (Rmin x y); [apply IH; now left | apply Rmin_r].
    + apply IH; now right.
Qed.

Lemma fold_Rmin_in (l : list R) (x : R) : In (fold_left Rmin l x) (x :: l).
Proof.
  revert x; induction l as [|z l IH]; intro x; simpl; [now left|].
  destruct (IH (Rmin x z)) as [H|H]; [|now right; right].
  rewrite <- H. unfold Rmin; destruct (Rle_dec x z); [now left | now right; left].
Qed.

Lemma fold_Rmax_ge (l : list R) (x y : R) :
  In y (x :: l) -> y <= fold_left Rmax l x.
Proof.
  revert x y; induction l as [|z l IH]; intros x y H; simpl in *.
  - destruct H as [->|[]]; lra.
  - destruct H as [->|[->|H]].
    + apply Rle_trans with (Rmax y z); [apply Rmax_l | apply IH; now left].
    + apply Rle_trans with (Rmax x y); [apply Rmax_r | apply IH; now left].
    + apply IH; now right.
Qed.

Lemma fold_Rmax_in (l : list R) (x : R) : In (fold_left Rmax l x) (x :: l).
Proof.
  revert x; induction l as [|z l IH]; intro x; simpl; [now left|].
  destruct (IH (Rmax x z)) as [H|H]; [|now right; right].
  rewrite <- H. unfold Rmax; destruct (Rle_dec x z); [now right; left | now left].
Qed.

Lemma entries_amap (f : f64 -> f64) (a : ndarray) :
  entries (amap f a) = map f (entries a).
Proof. unfold entries, amap; simpl. now rewrite concat_map. Qed.

Lemma entries_amap_num (f : f64 -> f64) (g : R -> R) (a : ndarray) (l : list R) :
  entries a = map Num l ->
  (forall x, In x l -> f (Num x) = Num (g x)) ->
  entries (amap f a) = map Num (map g l).
Proof.
  intros E H. rewrite entries_amap, E, !map_map.
  apply map_ext_in; exact H.
Qed.

(** The minimum of an array of finite numbers is the entry below all. *)
Lemma amin_char (a : ndarray) (l : list R) (m : R) :
  entries a = map Num l -> In m l -> (forall y, In y l -> m <= y) ->
  amin a = Ok (Num m).
Proof.
  intros E Hin Hle. unfold amin. rewrite E.
  destruct l as [|x t]; [destruct Hin|]. simpl.
  rewrite fold_fmin_num. do 2 f_equal.
  apply Rle_antisym.
  - now apply fold_Rmin_le.
  - apply Hle, fold_Rmin_in.
Qed.

Lemma amax_char (a : ndarray) (l : list R) (m : R) :
  entries a = map Num l -> In m l -> (forall y, In y l -> y <= m) ->
  amax a = Ok (Num m).
Proof.
  intros E Hin Hle. unfold amax. rewrite E.
  destruct l as [|x t]; [destruct Hin|]. simpl.
  rewrite fold_fmax_num. do 2 f_equal.
  apply Rle_antisym.
  - apply Hle, fold_Rmax_in.
  - now apply fold_Rmax_ge.
Qed.

(** A non-empty list of reals has a least and a greatest element. *)
Lemma list_min_exists (l : list R) :
  l <> [] -> exists m, In m l /\ forall y, In y l -> m <= y.
Proof.
  destruct l as [|x t]; [congruence|]. intros _.
  exists (fold_left Rmin t x). split; [apply fold_Rmin_in|].
  intros y Hy. now apply fold_Rmin_le.
Qed.

Lemma list_max_exists (l : list R) :
  l <> [] -> exists m, In m l /\ forall y, In y l -> y <= m.
Proof.
  destruct l as [|x t]; [congruence|]. intros _.
  exists (fold_left Rmax t x). split; [apply fold_Rmax_in|].
  intros y Hy. now apply fold_Rmax_ge.
Qed.

Lemma finite_entries (P : R -> Prop) (l : list f64) :
  Forall (fun x => exists r, x = Num r /\ P r) l ->
  exists rs, l = map Num rs /\ Forall P rs.
Proof.
  induction 1 as [|x l [r [-> Hr]] _ [rs [-> Hrs]]].
  - now exists [].
  - exists (r :: rs). split; [reflexivity | now constructor].
Qed.

(** ** The stages of [normalization_and_zooming] on finite entries *)

Lemma fdiv_num (a b : R) : b <> 0 -> fdiv (Num a) (Num b) = Num (a / b).
Proof. intro H. unfold fdiv. destruct (Req_dec_T b 0); [contradiction | reflexivity]. Qed.

Lemma fdiv_zero (x : f64) : fdiv x (Num 0) = NaN.
Proof.
  destruct x as [a|]; [|reflexivity]. unfold fdiv.
  destruct (Req_dec_T 0 0); [reflexivity | contradiction n; reflexivity].
Qed.

Lemma unit_fraction (p m M : R) :
  m <= p <= M -> m < M -> 0 <= (p - m) / (M - m) <= 1.
Proof.
  intros Hp HM.
  assert (Hi : 0 < / (M - m)) by (apply Rinv_0_lt_compat; lra).
  assert (Hone : (M - m) * / (M - m) = 1) by (apply Rinv_r; lra).
  unfold Rdiv. split; nra.
Qed.

(** Lines 91-92 on an array of finite entries that are not all equal: the
    result is finite, lies in [0, 1] and attains both ends. *)
Lemma scale_stage_num (a : ndarray) (ps : list R) :
  entries a = map Num ps ->
  (exists x y, In x ps /\ In y ps /\ x <> y) ->
  exists n qs,
    scale_stage a = Ok n /\ ncols n = ncols a /\ nrows n = nrows a /\
    entries n = map Num qs /\ In 0 qs /\ In 1 qs /\
    (forall q, In q qs -> 0 <= q <= 1).
Proof.
  intros E (x & y & Hx & Hy & Hxy).
  assert (Hne : ps <> []) by (intro H0; rewrite H0 in Hx; destruct Hx).
  destruct (list_min_exists ps Hne) as (m & Hm & Hmle).
  destruct (list_max_exists ps Hne) as (M & HM & HMge).
  assert (HmM : m < M).
  { pose proof (Hmle x Hx). pose proof (Hmle y Hy).
    pose proof (HMge x Hx). pose proof (HMge y Hy).
    destruct (Rle_lt_dec M m); [exfalso; apply Hxy; lra | assumption]. }
  set (sh := amap (fun v => fsub v (Num m)) a).
  assert (Esh : entries sh = map Num (map (fun p => p - m) ps)).
  { apply entries_amap_num; [exact E | reflexivity]. }
  assert (Hmax : amax sh = Ok (Num (M - m))).
  { apply amax_char with (l := map (fun p => p - m) ps); [exact Esh | |].
    - now apply (in_map (fun p => p - m)).
    - intros z Hz. apply in_map_iff in Hz. destruct Hz as (p & <- & Hp).
      pose proof (HMge p Hp). lra. }
  exists (amap (fun v => fdiv v (Num (M - m))) sh),
         (map (fun q => q / (M - m)) (map (fun p => p - m) ps)).
  split; [|split; [|split; [|split; [|split; [|split]]]]].
  - unfold scale_stage. rewrite (amin_char a ps m E Hm Hmle). simpl.
    fold sh. rewrite Hmax. reflexivity.
  - reflexivity.
  - unfold nrows, sh; simpl. now rewrite !length_map.
  - apply entries_amap_num; [exact Esh|].
    intros q _. apply fdiv_num. lra.
  - rewrite map_map. apply in_map_iff. exists m. split; [field; lra | exact Hm].
  - rewrite map_map. apply in_map_iff. exists M. split; [field; lra | exact HM].
  - intros q Hq. rewrite map_map in Hq. apply in_map_iff in Hq.
    destruct Hq as (p & <- & Hp). apply unit_fraction; [|exact HmM].
    split; [now apply Hmle | now apply HMge].
Qed.

Lemma zoom_pointwise (x : f64) :
  fdiv (fsub (where_set (fun v => fltb v (Num (1/4))) (Num (1/4)) x) (Num (1/4)))
       (Num (3/4)) = clip_rescale x.
Proof.
  destruct x as [v|]; [|reflexivity].
  unfold where_set, fltb, clip_rescale, Rmax.
  destruct (Rlt_dec v (1/4)); destruct (Rle_dec v (1/4)); try lra;
    unfold fsub; rewrite fdiv_num by lra; f_equal; lra.
Qed.

(** Lines 94-96 on a normalised array. *)
Lemma zoom_stage_num (n : ndarray) (qs : list R) :
  entries n = map Num qs -> In 0 qs -> In 1 qs ->
  (forall q, In q qs -> 0 <= q <= 1) ->
  exists out,
    zoom_stage n = Ok out /\ amin out = Ok (Num 0) /\ amax out = Ok (Num 1) /\
    rows out = map (map clip_rescale) (rows n) /\ ncols out = ncols n.
Proof.
  intros E H0 H1 Hb.
  set (cl := amap (where_set (fun v => fltb v (Num (1/4))) (Num (1/4))) n).
  set (sh := amap (fun v => fsub v (Num (1/4))) cl).
  assert (Esh : entries sh = map Num (map (fun q => Rmax q (1/4) - 1/4) qs)).
  { unfold sh, cl. rewrite !entries_amap, E, !map_map. apply map_ext.
    intro q. unfold where_set, fltb, Rmax.
    destruct (Rlt_dec q (1/4)); destruct (Rle_dec q (1/4)); try lra;
      unfold fsub; f_equal; lra. }
  assert (Hmax : amax sh = Ok (Num (3/4))).
  { apply amax_char with (l := map (fun q => Rmax q (1/4) - 1/4) qs); [exact Esh | |].
    - apply in_map_iff. exists 1. split; [|exact H1].
      rewrite Rmax_left by lra. lra.
    - intros z Hz. apply in_map_iff in Hz. destruct Hz as (q & <- & Hq).
      pose proof (Hb q Hq). unfold Rmax. destruct (Rle_dec q (1/4)); lra. }
  set (out := amap (fun v => fdiv v (Num (3/4))) sh).
  assert (Eout : entries out
                 = map Num (map (fun q => (Rmax q (1/4) - 1/4) / (3/4)) qs)).
  { unfold out. rewrite entries_amap, Esh, !map_map. apply map_ext.
    intro q. apply fdiv_num. lra. }
  exists out. split; [|split; [|split; [|split]]].
  - unfold zoom_stage. fold cl. fold sh. rewrite Hmax. reflexivity.
  - apply amin_char with (l := map (fun q => (Rmax q (1/4) - 1/4) / (3/4)) qs);
      [exact Eout | |].
    + apply in_map_iff. exists 0. split; [|exact H0].
      rewrite Rmax_right by lra. lra.
    + intros z Hz. apply in_map_iff in Hz. destruct Hz as (q & <- & Hq).
      unfold Rmax. destruct (Rle_dec q (1/4)); pose proof (Hb q Hq); lra.
  - apply amax_char with (l := map (fun q => (Rmax q (1/4) - 1/4) / (3/4)) qs);
      [exact Eout | |].
    + apply in_map_iff. exists 1. split; [|exact H1].
      rewrite Rmax_left by lra. lra.
    + intros z Hz. apply in_map_iff in Hz. destruct Hz as (q & <- & Hq).
      unfold Rmax. destruct (Rle_dec q (1/4)); pose proof (Hb q Hq); lra.
  - unfold out, sh, cl, amap; simpl. rewrite !map_map. apply map_ext.
    intro r. rewrite !map_map. apply map_ext. intro x. apply zoom_pointwise.
  - reflexivity.
Qed.

Lemma fold_fmax_nan (l : list f64) : fold_left fmax l NaN = NaN.
Proof. induction l as [|x l IH]; simpl; [reflexivity | exact IH]. Qed.

Lemma amax_nan_like (a : ndarray) :
  entries a <> [] -> amax (nan_like a) = Ok NaN.
Proof.
  intro H. unfold amax, nan_like. rewrite entries_amap.
  destruct (entries a) as [|x l]; [congruence|]. simpl.
  now rewrite fold_fmax_nan.
Qed.

Lemma amap_amap (f g : f64 -> f64) (a : ndarray) :
  amap f (amap g a) = amap (fun x => f (g x)) a.
Proof.
  unfold amap; simpl. f_equal. rewrite map_map. apply map_ext.
  intro r. apply map_map.
Qed.

Lemma amap_ext (f g : f64 -> f64) (a : ndarray) :
  (forall x, f x = g x) -> amap f a = amap g a.
Proof.
  intro H. unfold amap. f_equal. apply map_ext. intro r. now apply map_ext.
Qed.

(** Lines 91-96 when every entry left by line 90 is the same finite number:
    the first division is 0/0 everywhere, and nan stays. *)
Lemma constant_gives_nan (filled : ndarray) (ps : list R) (c : R) :
  entries filled = map Num ps -> ps <> [] -> (forall p, In p ps -> p = c) ->
  scale_stage filled = Ok (nan_like filled) /\
  zoom_stage (nan_like filled) = Ok (nan_like filled).
Proof.
  intros E Hne Hc.
  assert (Hin : In c ps).
  { destruct ps as [|p t]; [congruence|]. left. apply Hc. now left. }
  split.
  - unfold scale_stage.
    rewrite (amin_char filled ps c E Hin); [|intros y Hy; rewrite (Hc y Hy); lra].
    simpl.
    rewrite (amax_char _ (map (fun p => p - c) ps) 0).
    + simpl. rewrite amap_amap. apply f_equal, amap_ext. intro x. apply fdiv_zero.
    + apply entries_amap_num; [exact E | reflexivity].
    + apply in_map_iff. exists c. split; [lra | exact Hin].
    + intros y Hy. apply in_map_iff in Hy. destruct Hy as (p & <- & Hp).
      rewrite (Hc p Hp). lra.
  - unfold zoom_stage, nan_like. rewrite !amap_amap.
    assert (Hmax : amax (amap (fun _ => fsub
                     (where_set (fun x => fltb x (Num (1/4))) (Num (1/4)) NaN)
                     (Num (1/4))) filled) = Ok NaN).
    { apply amax_nan_like. rewrite E. destruct ps; [congruence | discriminate]. }
    rewrite Hmax. simpl. now rewrite amap_amap.
Qed.

(** Lines 87-88 on finite, non-negative entries give finite entries. *)
Lemma log_stage_num (bins : ndarray) (xs : list R) :
  entries bins = map Num xs -> Forall (fun x => 0 <= x) xs ->
  entries (log_stage bins)
  = map Num (map (fun x => ln (if Req_dec_T x 0 then 1 else x)) xs).
Proof.
  intros E Hpos. unfold log_stage. rewrite amap_amap.
  apply entries_amap_num; [exact E|].
  intros x Hx. rewrite Forall_forall in Hpos. specialize (Hpos x Hx).
  unfold where_set, is_zero, feqb, np_log.
  destruct (Req_dec_T x 0) as [e|n].
  - destruct (Rlt_dec 0 1); [reflexivity | lra].
  - destruct (Rlt_dec 0 x); [reflexivity | lra].
Qed.

Lemma fill_stage_num (a : ndarray) (ls : list R) (filled : ndarray) :
  entries a = map Num ls -> fill_stage a = Ok filled ->
  ncols filled = ncols a /\ nrows filled = nrows a /\
  exists ps, entries filled = map Num ps.
Proof.
  intros E H. unfold fill_stage in H.
  destruct ls as [|x t].
  - unfold amin in H. rewrite E in H. discriminate.
  - destruct (list_min_exists (x :: t)) as (m & Hm & Hle); [discriminate|].
    rewrite (amin_char a (x :: t) m E Hm Hle) in H. simpl in H.
    injection H as <-. split; [reflexivity|]. split.
    + unfold nrows; simpl. now rewrite length_map.
    + exists (map (fun l => if Req_dec_T l 0 then m else l) (x :: t)).
      apply entries_amap_num; [exact E|].
      intros l _. unfold where_set, is_zero, feqb.
      destruct (Req_dec_T l 0); reflexivity.
Qed.

(** C1 (amended).  For every bins array of finite non-negative magnitudes
    whose array after line 90 (zeros replaced by 1, logarithm taken, entries
    with logarithm 0 replaced by the minimum) still holds two different
    values, [normalization_and_zooming] returns an array of the same shape
    with minimum 0 and maximum 1, each entry being the normalised value of
    line 92 clipped at the floor 0.25, shifted by it and divided by 0.75. *)
Theorem normalization_min0_max1 (bins filled : ndarray) :
  nonneg_finite bins ->
  fill_stage (log_stage bins) = Ok filled ->
  (exists x y, In x (entries filled) /\ In y (entries filled) /\ x <> y) ->
  exists normalized out,
    scale_stage filled = Ok normalized /\
    normalization_and_zooming bins = Ok out /\
    amin out = Ok (Num 0) /\ amax out = Ok (Num 1) /\
    rows out = map (map clip_rescale) (rows normalized) /\
    ncols out = ncols bins /\ nrows out = nrows bins.
Proof.
  intros Hfin Hfill (x & y & Hx & Hy & Hxy).
  destruct (finite_entries _ _ Hfin) as (xs & E & Hpos).
  pose proof (log_stage_num bins xs E Hpos) as Elog.
  destruct (fill_stage_num _ _ _ Elog Hfill) as (Hc & Hr & ps & Eps).
  rewrite Eps in Hx, Hy.
  apply in_map_iff in Hx. destruct Hx as (px & <- & Hpx).
  apply in_map_iff in Hy. destruct Hy as (py & <- & Hpy).
  assert (Hd : exists u v, In u ps /\ In v ps /\ u <> v).
  { exists px, py. repeat split; try assumption. intro H; apply Hxy; now rewrite H. }
  destruct (scale_stage_num filled ps Eps Hd)
    as (n & qs & Hn & Hnc & Hnr & Eqs & H0 & H1 & Hb).
  destruct (zoom_stage_num n qs Eqs H0 H1 Hb) as (out & Hz & Hmin & Hmax & Hrows & Hoc).
  exists n, out. repeat split; try assumption.
  - unfold normalization_and_zooming. rewrite Hfill. simpl. rewrite Hn. exact Hz.
  - rewrite Hoc, Hnc, Hc. reflexivity.
  - unfold nrows in *. rewrite Hrows, length_map, Hnr, Hr.
    unfold log_stage, amap; simpl. now rewrite !length_map.
Qed.

Lemma ln_half_neg : ln (1/2) < 0.
Proof. rewrite <- ln_1. apply ln_increasing; lra. Qed.

Lemma ln_two_pos : 0 < ln 2.
Proof. rewrite <- ln_1. apply ln_increasing; lra. Qed.

Lemma log_stage_two_tones :
  log_stage two_tones = mk_ndarray 2 [[Num 0; Num (ln 2)]].
Proof.
  unfold log_stage, two_tones, amap, where_set, is_zero, feqb, np_log; simpl.
  destruct (Req_dec_T 1 0); [lra|]. destruct (Req_dec_T 2 0); [lra|].
  destruct (Rlt_dec 0 1); [|lra]. destruct (Rlt_dec 0 2); [|lra].
  now rewrite ln_1.
Qed.

Lemma fill_stage_two_tones :
  fill_stage (log_stage two_tones) = Ok (mk_ndarray 2 [[Num 0; Num (ln 2)]]).
Proof.
  pose proof ln_two_pos as Hln.
  rewrite log_stage_two_tones. unfold fill_stage.
  rewrite (amin_char _ [0; ln 2] 0); [| reflexivity | now left |].
  - unfold amap, where_set, is_zero, feqb; simpl.
    destruct (Req_dec_T 0 0); [|lra]. destruct (Req_dec_T (ln 2) 0); [lra|].
    reflexivity.
  - intros y [<-|[<-|[]]]; lra.
Qed.

Lemma normalization_min0_max1_witness :
  exists normalized out,
    scale_stage (mk_ndarray 2 [[Num 0; Num (ln 2)]]) = Ok normalized /\
    normalization_and_zooming two_tones = Ok out /\
    amin out = Ok (Num 0) /\ amax out = Ok (Num 1) /\
    rows out = map (map clip_rescale) (rows normalized) /\
    ncols out = ncols two_tones /\ nrows out = nrows two_tones.
Proof.
  apply (normalization_min0_max1 two_tones (mk_ndarray 2 [[Num 0; Num (ln 2)]])).
  - repeat constructor; eexists; (split; [reflexivity | lra]).
  - exact fill_stage_two_tones.
  - exists (Num 0), (Num (ln 2)). simpl. repeat split; auto.
    intro H. injection H as H. pose proof ln_two_pos. lra.
Defined.

Lemma log_stage_two_levels :
  log_stage two_levels = mk_ndarray 2 [[Num 0; Num (ln (1/2))]].
Proof.
  unfold log_stage, two_levels, amap, where_set, is_zero, feqb, np_log; simpl.
  destruct (Req_dec_T 0 0); [|lra]. destruct (Req_dec_T (1/2) 0); [lra|].
  destruct (Rlt_dec 0 1); [|lra]. destruct (Rlt_dec 0 (1/2)); [|lra].
  now rewrite ln_1.
Qed.

Lemma fill_stage_two_levels :
  fill_stage (log_stage two_levels)
  = Ok (mk_ndarray 2 [[Num (ln (1/2)); Num (ln (1/2))]]).
Proof.
  pose proof ln_half_neg as Hln.
  rewrite log_stage_two_levels. unfold fill_stage.
  rewrite (amin_char _ [0; ln (1/2)] (ln (1/2))); [| reflexivity | now right; left |].
  - unfold amap, where_set, is_zero, feqb; simpl.
    destruct (Req_dec_T 0 0); [|lra]. destruct (Req_dec_T (ln (1/2)) 0); [lra|].
    reflexivity.
  - intros y [<-|[<-|[]]]; lra.
Qed.

(** C1, as stated, fails on the magnitudes 0 and 0.5 (two distinct values):
    the zero is given the logarithm 0 and then the minimum, which is the
    logarithm of the other entry; line 92 divides 0 by 0, and every entry of
    the result is nan. *)
Lemma normalization_two_levels_nan :
  entries two_levels = [Num 0; Num (1/2)] /\ Num 0 <> Num (1/2) /\
  normalization_and_zooming two_levels = Ok (mk_ndarray 2 [[NaN; NaN]]) /\
  ~ (exists out, normalization_and_zooming two_levels = Ok out /\
                 amin out = Ok (Num 0) /\ amax out = Ok (Num 1)).
Proof.
  assert (Hv : normalization_and_zooming two_levels
               = Ok (mk_ndarray 2 [[NaN; NaN]])).
  { unfold normalization_and_zooming. rewrite fill_stage_two_levels. cbn [bind].
    destruct (constant_gives_nan (mk_ndarray 2 [[Num (ln (1/2)); Num (ln (1/2))]])
                [ln (1/2); ln (1/2)] (ln (1/2))) as (Hs & Hz).
    - reflexivity.
    - discriminate.
    - intros p [<-|[<-|[]]]; reflexivity.
    - rewrite Hs. cbn [bind]. rewrite Hz. reflexivity. }
  split; [reflexivity|]. split; [intro H; injection H as H; lra|].
  split; [exact Hv|].
  intros (out & Hout & Hmin & _). rewrite Hv in Hout. injection Hout as <-.
  unfold amin in Hmin; simpl in Hmin. discriminate.
Qed.

(** ** ratio *)

(** C5.  For positive [a] and [b], [ratio a b + ratio b a] is 1, and
    [ratio a 0] is 0. *)
Theorem ratio_balance (a b : R) :
  0 < a -> 0 < b ->
  fadd (ratio (Num a) (Num b)) (ratio (Num b) (Num a)) = Num 1 /\
  ratio (Num a) (Num 0) = Num 0.
Proof.
  intros Ha Hb. unfold ratio, fadd. rewrite !fdiv_num by lra.
  split; f_equal; field; lra.
Qed.

Lemma ratio_balance_witness :
  fadd (ratio (Num 1) (Num 3)) (ratio (Num 3) (Num 1)) = Num 1 /\
  ratio (Num 1) (Num 0) = Num 0.
Proof. apply (ratio_balance 1 3); lra. Defined.

(** ** Slices and windows *)

Lemma firstn_as_indices {A : Type} (d : A) (l : list A) (k : nat) :
  (k <= length l)%nat ->
  firstn k l = map (fun j => nth j l d) (seq 0 k).
Proof.
  revert k; induction l as [|x t IH]; intros k Hk; simpl in Hk.
  - assert (k = 0)%nat by lia. subst. reflexivity.
  - destruct k as [|k]; [reflexivity|]. simpl. f_equal.
    rewrite <- seq_shift, map_map. apply IH. lia.
Qed.

Lemma slice_as_indices {A : Type} (d : A) (l : list A) (a k : nat) :
  (a + k <= length l)%nat ->
  firstn k (skipn a l) = map (fun j => nth j l d) (seq a k).
Proof.
  revert a; induction l as [|x t IH]; intros a Hk; simpl in Hk.
  - assert (k = 0)%nat by lia. subst. now rewrite firstn_O.
  - destruct a as [|a].
    + simpl skipn. now apply firstn_as_indices.
    + simpl skipn. rewrite <- seq_shift, map_map. apply IH. lia.
Qed.

(** With a non-negative horizon the window of line 110 holds the frames
    [window_frames]. *)
Lemma window_slice (test1 : list f64) (horizon : Z) (i : nat) :
  (0 <= horizon)%Z -> (i < length test1)%nat ->
  py_slice test1 (Z.max 0 (Z.of_nat i - horizon))
           (Z.min (Z.of_nat (length test1)) (Z.of_nat i + horizon + 1))
  = map (fun j => nth j test1 NaN) (window_frames (length test1) horizon i).
Proof.
  intros Hh Hi. unfold py_slice, py_slice_index, window_frames.
  set (n := length test1) in *.
  destruct (Z.ltb_spec (Z.max 0 (Z.of_nat i - horizon)) 0); [lia|].
  destruct (Z.ltb_spec (Z.min (Z.of_nat n) (Z.of_nat i + horizon + 1)) 0); [lia|].
  replace (Z.to_nat
             (Z.min (Z.min (Z.of_nat n) (Z.of_nat i + horizon + 1)) (Z.of_nat n) -
              Z.min (Z.max 0 (Z.of_nat i - horizon)) (Z.of_nat n)))
    with (Z.to_nat (Z.min (Z.of_nat n - 1) (Z.of_nat i + horizon)) + 1
          - Z.to_nat (Z.max 0 (Z.of_nat i - horizon)))%nat by lia.
  replace (Z.to_nat (Z.min (Z.max 0 (Z.of_nat i - horizon)) (Z.of_nat n)))
    with (Z.to_nat (Z.max 0 (Z.of_nat i - horizon))) by lia.
  apply slice_as_indices. fold n. lia.
Qed.

Lemma window_frames_spec (n : nat) (horizon : Z) (i j : nat) :
  (0 <= horizon)%Z -> (i < n)%nat ->
  In j (window_frames n horizon i) <->
  (Z.of_nat i - horizon <= Z.of_nat j <= Z.of_nat i + horizon)%Z /\ (j < n)%nat.
Proof.
  intros Hh Hi. unfold window_frames. rewrite in_seq. lia.
Qed.

Lemma window_frames_length (n : nat) (horizon : Z) (i : nat) :
  (1 <= horizon)%Z -> (i < n)%nat -> (2 <= n)%nat ->
  (2 <= length (window_frames n horizon i))%nat.
Proof.
  intros Hh Hi Hn. unfold window_frames. rewrite length_seq. lia.
Qed.

Lemma filter_map_length {A B : Type} (p : B -> bool) (f : A -> B) (l : list A) :
  length (filter p (map f l)) = length (filter (fun x => p (f x)) l).
Proof.
  induction l as [|x l IH]; simpl; [reflexivity|].
  destruct (p (f x)); simpl; now rewrite IH.
Qed.

Lemma filter_without (p : nat -> bool) (i : nat) (l : list nat) :
  NoDup l -> In i l -> p i = true ->
  length (filter p l)
  = S (length (filter p (filter (fun j => negb (j =? i)%nat) l))).
Proof.
  induction 1 as [|x l Hx Hnd IH]; intros Hin Hp; [destruct Hin|].
  simpl. destruct Hin as [->|Hin].
  - rewrite Hp, Nat.eqb_refl. simpl. f_equal.
    f_equal. f_equal. symmetry. apply forallb_filter_id.
    apply forallb_forall. intros j Hj.
    destruct (Nat.eqb_spec j i); [subst; contradiction | reflexivity].
  - destruct (Nat.eqb_spec x i) as [->|Hne]; [contradiction|].
    simpl. destruct (p x); simpl; rewrite IH by assumption; reflexivity.
Qed.

(** ** The loop of [find_points] *)

Lemma emphasis_loop_ok (test1 : list f64) (threshold : R) (horizon : Z)
    (frames keep : list nat) :
  (forall i, In i frames -> exists b, emphasis_step test1 threshold horizon i = Ok b) ->
  emphasis_loop test1 threshold horizon frames keep
  = Ok (keep ++ filter (flagged test1 threshold horizon) frames).
Proof.
  revert keep; induction frames as [|i frames IH]; intros keep H; simpl.
  - now rewrite app_nil_r.
  - destruct (H i (or_introl eq_refl)) as (b & Hb).
    unfold flagged at 1. rewrite Hb. simpl.
    rewrite IH by (intros j Hj; apply H; now right).
    destruct b; [now rewrite <- app_assoc | reflexivity].
Qed.

Lemma emphasis_step_ok (test1 : list f64) (threshold : R) (horizon : Z) (i : nat) :
  (1 <= horizon)%Z -> (i < length test1)%nat -> (2 <= length test1)%nat ->
  exists b, emphasis_step test1 threshold horizon i = Ok b.
Proof.
  intros Hh Hi Hn. unfold emphasis_step.
  rewrite window_slice by (lia || assumption). rewrite length_map.
  pose proof (window_frames_length (length test1) horizon i Hh Hi Hn) as Hw.
  destruct (Z.eqb_spec (Z.of_nat (length (window_frames (length test1) horizon i)) - 1) 0);
    [lia | eauto].
Qed.

Lemma Rle_bool_true (a b : R) : Rle_bool a b = true <-> a <= b.
Proof.
  unfold Rle_bool. destruct (Rle_dec a b); split; intro H;
    try reflexivity; try assumption; try discriminate; contradiction.
Qed.

Lemma fgeb_refl (x : f64) : finite x -> fgeb x x = true.
Proof.
  intros [r ->]. unfold fgeb. destruct (Rle_dec r r); [reflexivity | lra].
Qed.

Lemma IZR_pred_of_nat (k : nat) : IZR (Z.of_nat (S k) - 1) = INR k.
Proof. rewrite INR_IZR_INZ. f_equal. lia. Qed.

(** The quotient of line 115 is the fraction among the other frames of the
    window, when frame [i] itself is finite. *)
Lemma emphasis_step_fraction (test1 : list f64) (threshold : R) (horizon : Z)
    (i : nat) :
  (1 <= horizon)%Z -> (i < length test1)%nat -> (2 <= length test1)%nat ->
  finite (nth i test1 NaN) ->
  emphasis_step test1 threshold horizon i
  = Ok (Rle_bool threshold (fraction_of_others test1 horizon i)).
Proof.
  intros Hh Hi Hn Hfin. unfold emphasis_step.
  rewrite window_slice by (lia || assumption). rewrite length_map.
  pose proof (window_frames_length (length test1) horizon i Hh Hi Hn) as Hw.
  unfold count. rewrite filter_map_length. unfold fraction_of_others.
  set (w := window_frames (length test1) horizon i) in *.
  assert (Hin : In i w).
  { unfold w. apply window_frames_spec; lia. }
  assert (Hnd : NoDup w) by (unfold w, window_frames; apply seq_NoDup).
  pose proof (filter_without (geq_at test1 i) i w Hnd Hin (fgeb_refl _ Hfin)) as Hg.
  pose proof (filter_without (fun _ => true) i w Hnd Hin eq_refl) as Ha.
  rewrite forallb_filter_id in Ha by (apply forallb_forall; reflexivity).
  rewrite forallb_filter_id in Ha by (apply forallb_forall; reflexivity).
  fold (geq_at test1 i). change (fun x => fgeb (nth x test1 NaN) (nth i test1 NaN))
    with (geq_at test1 i).
  rewrite Hg, Ha, !IZR_pred_of_nat.
  destruct (Z.eqb_spec (Z.of_nat (S (length (filter (fun j => negb (j =? i)%nat) w))) - 1) 0);
    [lia | reflexivity].
Qed.

Lemma finite_nth (curve : list f64) (j : nat) :
  Forall finite curve -> (j < length curve)%nat ->
  exists b, nth j curve NaN = Num b /\ nth_error curve j = Some (Num b).
Proof.
  intros Hf Hj. rewrite Forall_forall in Hf.
  destruct (Hf (nth j curve NaN) (nth_In _ _ Hj)) as [b Hb].
  exists b. split; [exact Hb|]. rewrite <- Hb. now apply nth_error_nth'.
Qed.

(** The frames kept over a curve of finite values, when no window is a
    single frame. *)
Lemma emphasis_loop_finite (curve : list f64) (threshold : R) (horizon : Z) :
  Forall finite curve -> (1 <= horizon)%Z -> length curve <> 1%nat ->
  exists keep,
    emphasis_loop curve threshold horizon (seq 0 (length curve)) [] = Ok keep /\
    forall i, In i keep <->
              (i < length curve)%nat /\
              threshold <= fraction_of_others curve horizon i.
Proof.
  intros Hf Hh Hn.
  exists (filter (flagged curve threshold horizon) (seq 0 (length curve))). split.
  - rewrite emphasis_loop_ok; [reflexivity|].
    intros i Hi. apply in_seq in Hi. apply emphasis_step_ok; lia.
  - intro i. rewrite filter_In, in_seq. split.
    + intros [Hi Hfl]. split; [lia|].
      unfold flagged in Hfl. rewrite emphasis_step_fraction in Hfl; try lia.
      * now apply Rle_bool_true.
      * destruct (finite_nth curve i Hf) as (b & Hb & _); [lia|]. now exists b.
    + intros [Hi Hthr]. split; [lia|].
      unfold flagged. rewrite emphasis_step_fraction; try lia.
      * now apply Rle_bool_true.
      * destruct (finite_nth curve i Hf) as (b & Hb & _); [lia|]. now exists b.
Qed.

(** Settle the comparisons of concrete reals in the goal, innermost first. *)
Ltac no_decision t :=
  lazymatch t with
  | context [Rle_dec] => fail
  | context [Rlt_dec] => fail
  | context [Req_dec_T] => fail
  | _ => idtac
  end.

Ltac decide_reals :=
  repeat (match goal with
          | |- context [Req_dec_T ?a ?b] =>
              no_decision a; no_decision b; destruct (Req_dec_T a b); try lra
          | |- context [Rlt_dec ?a ?b] =>
              no_decision a; no_decision b; destruct (Rlt_dec a b); try lra
          | |- context [Rle_dec ?a ?b] =>
              no_decision a; no_decision b; destruct (Rle_dec a b); try lra
          end; simpl).

Lemma flagged_fraction (curve : list f64) (threshold : R) (horizon : Z) (i : nat) :
  Forall finite curve -> (1 <= horizon)%Z -> (i < length curve)%nat ->
  (2 <= length curve)%nat ->
  flagged curve threshold horizon i
  = Rle_bool threshold (fraction_of_others curve horizon i).
Proof.
  intros Hf Hh Hi Hn. unfold flagged.
  rewrite emphasis_step_fraction; try assumption; [reflexivity|].
  destruct (finite_nth curve i Hf Hi) as (b & Hb & _). now exists b.
Qed.

Lemma find_points_finite (g : globals) (bins0 : ndarray) (threshold : R)
    (horizon : Z) :
  g_bins0 g = Some bins0 ->
  Forall finite (np_average_axis0 bins0) -> (1 <= horizon)%Z ->
  (2 <= length (np_average_axis0 bins0))%nat ->
  find_points g threshold horizon
  = Ok (filter (fun i => Rle_bool threshold
                           (fraction_of_others (np_average_axis0 bins0) horizon i))
               (seq 0 (length (np_average_axis0 bins0)))).
Proof.
  intros Hg Hf Hh Hn. unfold find_points. rewrite Hg.
  rewrite emphasis_loop_ok.
  - simpl. f_equal. apply filter_ext_in. intros i Hi. apply in_seq in Hi.
    apply flagged_fraction; try assumption; lia.
  - intros i Hi. apply in_seq in Hi. apply emphasis_step_ok; lia.
Qed.


Lemma average_step_bins : np_average_axis0 step_bins = [Num 0; Num 1].
Proof.
  unfold np_average_axis0, step_bins, fsum, nrows.
  cbn [ncols rows seq map nth fold_left fadd length INR].
  rewrite !fdiv_num by lra.
  repeat (apply (f_equal2 cons); [apply f_equal; lra|]). reflexivity.
Qed.

Lemma average_ramp_bins : np_average_axis0 ramp_bins = [Num 0; Num (1/2); Num 1].
Proof.
  unfold np_average_axis0, ramp_bins, fsum, nrows.
  cbn [ncols rows seq map nth fold_left fadd length INR].
  rewrite !fdiv_num by lra.
  repeat (apply (f_equal2 cons); [apply f_equal; lra|]). reflexivity.
Qed.

Lemma finite_step_curve : Forall finite [Num 0; Num 1].
Proof. repeat constructor; eexists; reflexivity. Qed.


Lemma find_points_step (threshold : R) (horizon : Z) :
  (horizon = 1 \/ horizon = 2 \/ horizon = 7)%Z -> 0 < threshold <= 1 ->
  find_points (only_bins0 step_bins) threshold horizon = Ok [0%nat].
Proof.
  intros Hc Ht.
  rewrite (find_points_finite (only_bins0 step_bins) step_bins _ _ eq_refl);
    rewrite ?average_step_bins;
    [| exact finite_step_curve | lia | simpl; lia].
  unfold fraction_of_others, window_frames, geq_at, fgeb, Rle_bool.
  destruct Hc as [-> | [-> | ->]]; simpl; decide_reals; reflexivity.
Qed.


(** ** A horizon that reaches beyond the curve *)


(** A curve of a single frame: the only window has one frame, and line 115
    divides by zero. *)
Lemma single_frame_divides_by_zero (x : f64) (threshold : R) (horizon : Z) :
  (0 <= horizon)%Z ->
  emphasis_loop [x] threshold horizon (seq 0 1) [] = Raise ZeroDivisionError.
Proof.
  intro Hh. simpl. unfold emphasis_step.
  rewrite window_slice by (simpl; lia). rewrite length_map.
  unfold window_frames. rewrite length_seq. simpl length.
  replace (Z.of_nat
             (Z.to_nat (Z.min (Z.of_nat 1 - 1) (Z.of_nat 0 + horizon)) + 1 -
              Z.to_nat (Z.max 0 (Z.of_nat 0 - horizon))) - 1)%Z with 0%Z by lia.
  reflexivity.
Qed.




(** ** Rising curves *)

Lemma filter_none {A : Type} (p : A -> bool) (l : list A) :
  (forall x, In x l -> p x = false) -> filter p l = [].
Proof.
  induction l as [|x l IH]; intro H; simpl; [reflexivity|].
  rewrite (H x (or_introl eq_refl)). apply IH. intros y Hy. apply H. now right.
Qed.

Lemma others_length (n : nat) (horizon : Z) (i : nat) :
  (1 <= horizon)%Z -> (i < n)%nat -> (2 <= n)%nat ->
  (1 <= length (filter (fun j => negb (j =? i)%nat) (window_frames n horizon i)))%nat.
Proof.
  intros Hh Hi Hn.
  pose proof (window_frames_length n horizon i Hh Hi Hn) as Hw.
  assert (Hin : In i (window_frames n horizon i))
    by (apply window_frames_spec; lia).
  pose proof (filter_without (fun _ => true) i _ (seq_NoDup _ _) Hin eq_refl) as Ha.
  unfold window_frames in *.
  rewrite forallb_filter_id in Ha by (apply forallb_forall; reflexivity).
  rewrite forallb_filter_id in Ha by (apply forallb_forall; reflexivity).
  lia.
Qed.

(** On a rising curve no other frame of the window reaches the last one. *)
Lemma fraction_at_last_frame (curve : list f64) (horizon : Z) :
  Forall finite curve -> strictly_increasing curve ->
  (1 <= horizon)%Z -> (2 <= length curve)%nat ->
  fraction_of_others curve horizon (length curve - 1) = 0.
Proof.
  intros Hf Hinc Hh Hn. unfold fraction_of_others.
  rewrite filter_none; [simpl; unfold Rdiv; apply Rmult_0_l|].
  intros j Hj. apply filter_In in Hj. destruct Hj as [Hw Hne].
  apply window_frames_spec in Hw; [|lia|lia].
  destruct (Nat.eqb_spec j (length curve - 1)) as [|Hji]; [discriminate|].
  destruct (finite_nth curve j Hf) as (a & Ha & Ea); [lia|].
  destruct (finite_nth curve (length curve - 1) Hf) as (b & Hb & Eb); [lia|].
  assert (a < b) by (apply (Hinc j (length curve - 1)%nat a b); [lia | assumption..]).
  unfold geq_at. rewrite Ha, Hb. unfold fgeb.
  destruct (Rle_dec b a); [lra | reflexivity].
Qed.

(** On a rising curve every other frame of the window reaches the first. *)
Lemma fraction_at_first_frame (curve : list f64) (horizon : Z) :
  Forall finite curve -> strictly_increasing curve ->
  (1 <= horizon)%Z -> (2 <= length curve)%nat ->
  fraction_of_others curve horizon 0 = 1.
Proof.
  intros Hf Hinc Hh Hn. unfold fraction_of_others.
  pose proof (others_length (length curve) horizon 0 Hh) as Hlen.
  rewrite forallb_filter_id.
  - apply Rinv_r. apply not_0_INR. lia.
  - apply forallb_forall. intros j Hj. apply filter_In in Hj.
    destruct Hj as [Hw Hne].
    apply window_frames_spec in Hw; [|lia|lia].
    destruct (Nat.eqb_spec j 0) as [|Hj0]; [discriminate|].
    destruct (finite_nth curve j Hf) as (a & Ha & Ea); [lia|].
    destruct (finite_nth curve 0 Hf) as (b & Hb & Eb); [lia|].
    assert (b < a) by (apply (Hinc 0%nat j b a); [lia | assumption..]).
    unfold geq_at. rewrite Ha, Hb. unfold fgeb.
    destruct (Rle_dec b a); [reflexivity | lra].
Qed.

(** On a strictly rising curve of finite values with at least two frames
    and a horizon of at least one frame, [find_points] flags the last frame
    only at a threshold [<= 0]; the frame flagged at every threshold [<= 1]
    is the first one. *)
Theorem rising_curve_flags (g : globals) (bins0 : ndarray) (threshold : R)
    (horizon : Z) :
  g_bins0 g = Some bins0 ->
  Forall finite (np_average_axis0 bins0) ->
  strictly_increasing (np_average_axis0 bins0) ->
  (1 <= horizon)%Z ->
  (2 <= length (np_average_axis0 bins0))%nat ->
  exists keep,
    find_points g threshold horizon = Ok keep /\
    (In (length (np_average_axis0 bins0) - 1)%nat keep <-> threshold <= 0) /\
    (In 0%nat keep <-> threshold <= 1).
Proof.
  intros Hg Hf Hinc Hh Hn. unfold find_points. rewrite Hg.
  set (curve := np_average_axis0 bins0) in *.
  destruct (emphasis_loop_finite curve threshold horizon Hf Hh) as (keep & Hk & Hm);
    [lia|].
  exists keep. split; [exact Hk|]. split; rewrite Hm.
  - rewrite fraction_at_last_frame by assumption. split; [tauto|]. split; [lia|tauto].
  - rewrite fraction_at_first_frame by assumption. split; [tauto|]. split; [lia|tauto].
Qed.

Lemma ramp_strictly_increasing : strictly_increasing [Num 0; Num (1/2); Num 1].
Proof.
  intros j k a b Hjk Hj Hk.
  destruct j as [|[|[|j]]]; destruct k as [|[|[|k]]]; simpl in Hj, Hk;
    try lia; try (destruct j; discriminate); try (destruct k; discriminate);
    injection Hj as <-; injection Hk as <-; lra.
Qed.

Lemma rising_curve_flags_witness :
  exists keep,
    find_points (only_bins0 ramp_bins) (27/30) 7 = Ok keep /\
    (In (length (np_average_axis0 ramp_bins) - 1)%nat keep <-> 27/30 <= 0) /\
    (In 0%nat keep <-> 27/30 <= 1).
Proof.
  apply (rising_curve_flags (only_bins0 ramp_bins) ramp_bins (27/30) 7).
  - reflexivity.
  - rewrite average_ramp_bins. repeat constructor; eexists; reflexivity.
  - rewrite average_ramp_bins. exact ramp_strictly_increasing.
  - lia.
  - rewrite average_ramp_bins. simpl. lia.
Defined.

(** C2 (the code at a ramp).  With [bins0] the ramp 0, 0.5, 1 at module
    level, [find_points(27/30, 7)] returns the list holding frame 0 alone:
    the last frame of the rising curve, frame 2, is not flagged although the
    threshold is below 1. *)
Theorem ramp_last_frame_not_flagged :
  np_average_axis0 ramp_bins = [Num 0; Num (1/2); Num 1] /\
  strictly_increasing (np_average_axis0 ramp_bins) /\
  find_points (only_bins0 ramp_bins) (27/30) 7 = Ok [0%nat] /\
  ~ In 2%nat [0%nat].
Proof.
  split; [exact average_ramp_bins|]. split; [|split].
  - rewrite average_ramp_bins. exact ramp_strictly_increasing.
  - rewrite (find_points_finite (only_bins0 ramp_bins) ramp_bins _ _ eq_refl);
      rewrite ?average_ramp_bins;
      [| repeat constructor; eexists; reflexivity | lia | simpl; lia].
    unfold fraction_of_others, window_frames, geq_at, fgeb, Rle_bool.
    simpl. decide_reals. reflexivity.
  - intros [H|[]]. discriminate.
Qed.

(** ** The curve read by [find_points] *)

Lemma fadd_assoc (x y z : f64) : fadd (fadd x y) z = fadd x (fadd y z).
Proof.
  destruct x, y, z; simpl; try reflexivity. f_equal. ring.
Qed.

Lemma fsum_fold_right (l : list f64) :
  fsum l = fold_right fadd (Num 0) l.
Proof.
  unfold fsum.
  assert (H : forall acc, fold_left fadd l acc = fadd acc (fold_right fadd (Num 0) l)).
  { induction l as [|x l IH]; intro acc; simpl.
    - destruct acc; simpl; [f_equal; ring | reflexivity].
    - rewrite IH. apply fadd_assoc. }
  rewrite H. destruct (fold_right fadd (Num 0) l); simpl; [f_equal; ring | reflexivity].
Qed.

Lemma column_sum (a : ndarray) (c : nat) :
  fsum (map (fun r => nth c r NaN) (rows a))
  = fold_right (fun j acc => fadd (nth c (nth j (rows a) []) NaN) acc)
               (Num 0) (seq 0 (nrows a)).
Proof.
  rewrite fsum_fold_right. unfold nrows.
  assert (E : rows a = map (fun j => nth j (rows a) []) (seq 0 (length (rows a)))).
  { rewrite <- firstn_as_indices by lia. symmetry. apply firstn_all. }
  rewrite E at 1. rewrite map_map.
  generalize (seq 0 (length (rows a))) as js.
  induction js as [|j js IH]; simpl; [reflexivity | now rewrite IH].
Qed.

(** C7.  [find_points] has the parameters [threshold] and [horizon] only and
    takes its data from the module-level [bins0]: it raises NameError while
    that name is unbound, two module states with the same [bins0] give the
    same result for the same arguments, and the curve it scans has one value
    per frame, the arithmetic mean of that frame over the bands. *)
Theorem find_points_reads_module_bins0 (g g' : globals) (bins0 : ndarray)
    (threshold : R) (horizon : Z) :
  g_bins0 g = Some bins0 ->
  g_bins0 g' = g_bins0 g ->
  find_points g' threshold horizon = find_points g threshold horizon /\
  find_points g threshold horizon
  = emphasis_loop (np_average_axis0 bins0) threshold horizon
                  (seq 0 (ncols bins0)) [] /\
  length (np_average_axis0 bins0) = ncols bins0 /\
  (forall c, (c < ncols bins0)%nat ->
             nth c (np_average_axis0 bins0) NaN = band_mean bins0 c) /\
  (forall u, g_bins0 u = None ->
             find_points u threshold horizon = Raise NameError).
Proof.
  intros Hg Hg'.
  assert (Hlen : length (np_average_axis0 bins0) = ncols bins0).
  { unfold np_average_axis0. now rewrite length_map, length_seq. }
  split; [|split; [|split; [|split]]].
  - unfold find_points. now rewrite Hg'.
  - unfold find_points. now rewrite Hg, Hlen.
  - exact Hlen.
  - intros c Hc. unfold np_average_axis0, band_mean.
    rewrite (nth_indep _ NaN (fdiv (fsum (map (fun r => nth 0 r NaN) (rows bins0)))
                                   (Num (INR (nrows bins0)))))
      by (rewrite length_map, length_seq; exact Hc).
    rewrite (map_nth (fun c => fdiv (fsum (map (fun r => nth c r NaN) (rows bins0)))
                                    (Num (INR (nrows bins0))))).
    rewrite seq_nth by exact Hc. simpl. now rewrite column_sum.
  - intros u Hu. unfold find_points. now rewrite Hu.
Qed.

Lemma find_points_reads_module_bins0_witness :
  find_points (mk_globals (Some step_bins) (Some two_tones) (Some 0%Z)
                          (Some 1%Z) (Some 15%Z)) (27/30) 7
  = find_points (only_bins0 step_bins) (27/30) 7 /\
  find_points (only_bins0 step_bins) (27/30) 7
  = emphasis_loop (np_average_axis0 step_bins) (27/30) 7
                  (seq 0 (ncols step_bins)) [] /\
  length (np_average_axis0 step_bins) = ncols step_bins /\
  (forall c, (c < ncols step_bins)%nat ->
             nth c (np_average_axis0 step_bins) NaN = band_mean step_bins c) /\
  (forall u, g_bins0 u = None -> find_points u (27/30) 7 = Raise NameError).
Proof.
  apply (find_points_reads_module_bins0 (only_bins0 step_bins)
           (mk_globals (Some step_bins) (Some two_tones) (Some 0%Z)
                       (Some 1%Z) (Some 15%Z)) step_bins (27/30) 7);
    reflexivity.
Defined.

(** ** The frame loop of [circle_mode] *)

Lemma points_among_step (points : list nat) (s d : nat) :
  points_among points s (S d)
  = ((if mem_nat s points then 1 else 0) + points_among points (S s) d)%nat.
Proof.
  unfold points_among. simpl. destruct (mem_nat s points); reflexivity.
Qed.

(** The colours of the frames snapped by the loop, from any starting state. *)
Lemma frame_loop_colors (random_random : nat -> R) (bins0 : ndarray)
    (bins1 : option ndarray) (points : list nat) (circle_width : Z) (k : nat) :
  forall (s : nat) (color : rgb) (calls : nat) (snapped out : list frame),
    frame_loop random_random bins0 bins1 true points circle_width (seq s k)
               color calls snapped = Ok out ->
    exists new,
      out = snapped ++ new /\ length new = k /\
      forall d, (d < k)%nat ->
        background (nth d new blank)
        = if mem_nat (s + d) points
          then fresh_color random_random (calls + 3 * points_among points s d)
          else decay (match d with
                      | O => color
                      | S d' => background (nth d' new blank)
                      end).
Proof.
  induction k as [|k IH]; intros s color calls snapped out H.
  - simpl in H. injection H as <-. exists []. rewrite app_nil_r.
    repeat split. intros d Hd. lia.
  - simpl in H.
    set (st := if mem_nat s points
               then (fresh_color random_random calls, (calls + 3)%nat)
               else (decay color, calls)) in *.
    assert (Hst : (if mem_nat s points
                   then ((random_random calls, random_random (calls + 1)%nat,
                          random_random (calls + 2)%nat), (calls + 3)%nat)
                   else (decay color, calls)) = st) by reflexivity.
    rewrite Hst in H. destruct st as [color' calls'] eqn:Est.
    destruct (frame_circles bins0 bins1 circle_width s) as [cs|e] eqn:Ecs;
      [|discriminate].
    simpl in H. apply IH in H. destruct H as (new & -> & Hlen & Hcol).
    exists (mk_frame color' cs :: new). split; [|split].
    + now rewrite <- app_assoc.
    + simpl. now rewrite Hlen.
    + intros d Hd. destruct d as [|d].
      * cbn [nth background]. rewrite Nat.add_0_r.
        replace (calls + 3 * points_among points s 0)%nat with calls
          by (unfold points_among; simpl; lia).
        unfold st in Est.
        destruct (mem_nat s points); injection Est as <- <-; reflexivity.
      * cbn [nth]. rewrite Hcol by lia.
        replace (S s + d)%nat with (s + S d)%nat by lia.
        rewrite points_among_step.
        replace (calls' + 3 * points_among points (S s) d)%nat
          with (calls + 3 * ((if mem_nat s points then 1 else 0)
                             + points_among points (S s) d))%nat.
        -- destruct d; reflexivity.
        -- unfold st in Est.
           destruct (mem_nat s points); injection Est as <- <-; lia.
Qed.



(** ** Bins arrays of different frame counts *)

Lemma map_result_ok {A B : Type} (f : A -> result B) (l : list A) :
  (forall x, In x l -> exists y, f x = Ok y) ->
  exists ys, map_result f l = Ok ys.
Proof.
  induction l as [|x l IH]; intro H; simpl; [now exists []|].
  destruct (H x (or_introl eq_refl)) as (y & ->).
  destruct IH as (ys & ->); [intros z Hz; apply H; now right|].
  simpl. now exists (y :: ys).
Qed.

Lemma map_result_error {A B : Type} (f : A -> result B) (l : list A) (e0 : exn) :
  (forall x e, In x l -> f x = Raise e -> e = e0) ->
  forall e, map_result f l = Raise e -> e = e0.
Proof.
  induction l as [|x l IH]; intros H e He; simpl in He; [discriminate|].
  destruct (f x) as [y|e'] eqn:Ex; simpl in He.
  - destruct (map_result f l) as [ys|e''] eqn:El; simpl in He; [discriminate|].
    injection He as <-. apply IH; [|reflexivity].
    intros z e1 Hz. apply H. now right.
  - injection He as <-. apply (H x); [now left | exact Ex].
Qed.

Lemma aget_in_range (a : ndarray) (j i : nat) :
  (j < nrows a)%nat -> (i < ncols a)%nat ->
  aget a j i = Ok (nth i (nth j (rows a) []) NaN).
Proof.
  intros Hj Hi. unfold aget.
  destruct (Nat.ltb_spec j (nrows a)); [|lia].
  destruct (Nat.ltb_spec i (ncols a)); [reflexivity | lia].
Qed.

Lemma aget_error (a : ndarray) (j i : nat) (e : exn) :
  aget a j i = Raise e -> e = IndexError.
Proof.
  unfold aget. destruct ((j <? nrows a)%nat && (i <? ncols a)%nat);
    [discriminate | now intros [= <-]].
Qed.

Lemma frame_circles_ok (bins0 bins1 : ndarray) (circle_width : Z) (i : nat) :
  (i < ncols bins0)%nat -> (i < ncols bins1)%nat ->
  (nrows bins0 <= nrows bins1)%nat ->
  exists cs, frame_circles bins0 (Some bins1) circle_width i = Ok cs.
Proof.
  intros H0 H1 Hr. unfold frame_circles. apply map_result_ok.
  intros j Hj. apply in_seq in Hj.
  rewrite !aget_in_range by lia. simpl. eauto.
Qed.

Lemma frame_circles_error (bins0 : ndarray) (bins1 : option ndarray)
    (circle_width : Z) (i : nat) (e : exn) :
  frame_circles bins0 bins1 circle_width i = Raise e -> e = IndexError.
Proof.
  unfold frame_circles. apply map_result_error. intros j e' _.
  destruct bins1 as [b1|].
  - destruct (aget bins0 j i) eqn:E0; simpl.
    + destruct (aget b1 j i) eqn:E1; simpl; [discriminate|].
      intros [= <-]. now apply aget_error in E1.
    + intros [= <-]. now apply aget_error in E0.
  - destruct (aget bins0 j i) eqn:E0; simpl; [discriminate|].
    intros [= <-]. now apply aget_error in E0.
Qed.

Lemma frame_circles_missing_frame (bins0 bins1 : ndarray) (circle_width : Z)
    (i : nat) :
  (1 <= nrows bins0)%nat -> (i < ncols bins0)%nat -> (ncols bins1 <= i)%nat ->
  frame_circles bins0 (Some bins1) circle_width i = Raise IndexError.
Proof.
  intros Hr H0 H1. unfold frame_circles.
  destruct (nrows bins0) as [|r] eqn:Er; [lia|]. simpl.
  rewrite aget_in_range by lia. simpl. unfold aget at 1.
  destruct (Nat.ltb_spec i (ncols bins1)); [lia|].
  rewrite andb_false_r. reflexivity.
Qed.

Lemma frame_loop_ok (random_random : nat -> R) (bins0 : ndarray)
    (bins1 : option ndarray) (color_changing : bool) (points : list nat)
    (circle_width : Z) (frames : list nat) :
  (forall i, In i frames ->
             exists cs, frame_circles bins0 bins1 circle_width i = Ok cs) ->
  forall color calls snapped,
  exists out,
    frame_loop random_random bins0 bins1 color_changing points circle_width
               frames color calls snapped = Ok out /\
    length out = (length snapped + length frames)%nat.
Proof.
  induction frames as [|i frames IH]; intros H color calls snapped; simpl.
  - exists snapped. split; [reflexivity | lia].
  - destruct (H i (or_introl eq_refl)) as (cs & Hcs).
    destruct (if color_changing
              then if mem_nat i points
                   then ((random_random calls, random_random (calls + 1)%nat,
                          random_random (calls + 2)%nat), (calls + 3)%nat)
                   else (decay color, calls)
              else (color, calls)) as [color' calls'].
    rewrite Hcs. simpl.
    destruct (IH (fun j Hj => H j (or_intror Hj)) color' calls'
                 (snapped ++ [mk_frame color' cs])) as (out & Hout & Hlen).
    exists out. split; [exact Hout|]. rewrite Hlen, length_app. simpl. lia.
Qed.

Lemma frame_loop_index_error (random_random : nat -> R) (bins0 : ndarray)
    (bins1 : option ndarray) (color_changing : bool) (points : list nat)
    (circle_width : Z) (frames : list nat) :
  (exists i, In i frames /\
             frame_circles bins0 bins1 circle_width i = Raise IndexError) ->
  forall color calls snapped,
    frame_loop random_random bins0 bins1 color_changing points circle_width
               frames color calls snapped = Raise IndexError.
Proof.
  induction frames as [|i frames IH]; intros (k & Hk & Ek) color calls snapped.
  - destruct Hk.
  - simpl.
    destruct (if color_changing
              then if mem_nat i points
                   then ((random_random calls, random_random (calls + 1)%nat,
                          random_random (calls + 2)%nat), (calls + 3)%nat)
                   else (decay color, calls)
              else (color, calls)) as [color' calls'].
    destruct (frame_circles bins0 bins1 circle_width i) as [cs|e] eqn:Ei; simpl.
    + apply IH. exists k. split; [|exact Ek].
      destruct Hk as [->|Hk]; [congruence | exact Hk].
    + now rewrite (frame_circles_error _ _ _ _ _ Ei).
Qed.

(** C8 (amended).  [circle_mode] does not compare the frame counts of its
    two arrays.  When [bins1] has more frames than [bins0] (and at least as
    many bands) it renders the frames of [bins0] and never reads the others
    of [bins1]; when [bins1] has fewer frames and [bins0] has a band, it
    raises IndexError. *)
Theorem circle_mode_unmatched_frame_counts (random_random : nat -> R)
    (g : globals) (bins0 bins1 : ndarray) (color_changing : bool)
    (circle_width : Z) (points : list nat) :
  ncols bins0 <> ncols bins1 ->
  (if color_changing then find_points g (27/30) 7 else Ok []) = Ok points ->
  ((ncols bins0 < ncols bins1)%nat -> (nrows bins0 <= nrows bins1)%nat ->
   exists frames,
     circle_mode random_random g bins0 (Some bins1) color_changing circle_width
     = Ok frames /\
     length frames = ncols bins0) /\
  ((ncols bins1 < ncols bins0)%nat -> (1 <= nrows bins0)%nat ->
   circle_mode random_random g bins0 (Some bins1) color_changing circle_width
   = Raise IndexError).
Proof.
  intros Hne Hp. unfold circle_mode. rewrite Hp. cbn [bind]. split.
  - intros Hlt Hr.
    destruct (frame_loop_ok random_random bins0 (Some bins1) color_changing
                points circle_width (seq 0 (ncols bins0))) with
      (color := (1, 1, 1)) (calls := 0%nat) (snapped := @nil frame)
      as (out & Hout & Hlen).
    + intros i Hi. apply in_seq in Hi. apply frame_circles_ok; lia.
    + exists out. split; [exact Hout|]. rewrite Hlen, length_seq. reflexivity.
  - intros Hlt Hr. apply frame_loop_index_error.
    exists (ncols bins1). split; [apply in_seq; lia|].
    apply frame_circles_missing_frame; lia.
Qed.

Lemma circle_mode_unmatched_frame_counts_witness :
  ((ncols one_frame < ncols step_bins)%nat ->
   (nrows one_frame <= nrows step_bins)%nat ->
   exists frames,
     circle_mode tenths (only_bins0 one_frame) one_frame (Some step_bins)
                 false 15 = Ok frames /\
     length frames = ncols one_frame) /\
  ((ncols step_bins < ncols one_frame)%nat -> (1 <= nrows one_frame)%nat ->
   circle_mode tenths (only_bins0 one_frame) one_frame (Some step_bins)
               false 15 = Raise IndexError).
Proof.
  apply (circle_mode_unmatched_frame_counts tenths (only_bins0 one_frame)
           one_frame step_bins false 15 []).
  - simpl. lia.
  - reflexivity.
Defined.

(** C8, as stated, fails on a left array of one frame and a right array of
    two: [circle_mode] raises nothing and renders the single frame of the
    left array, the second frame of the right array being dropped. *)
Lemma circle_mode_truncates_counterexample :
  ncols one_frame = 1%nat /\ ncols step_bins = 2%nat /\
  circle_mode tenths (only_bins0 one_frame) one_frame (Some step_bins) false 15
  = Ok truncated_frames /\
  length truncated_frames = 1%nat /\
  circle_mode tenths (only_bins0 one_frame) one_frame (Some step_bins) false 15
  <> Raise ValueError.
Proof.
  assert (H : circle_mode tenths (only_bins0 one_frame) one_frame
                (Some step_bins) false 15 = Ok truncated_frames) by reflexivity.
  repeat split; try reflexivity. rewrite H. discriminate.
Qed.

(** ** The shape of the arrays returned by [wav_to_bins] *)

Lemma amin_total (a : ndarray) : entries a <> [] -> exists m, amin a = Ok m.
Proof. unfold amin. destruct (entries a); [congruence | eauto]. Qed.

Lemma amax_total (a : ndarray) : entries a <> [] -> exists m, amax a = Ok m.
Proof. unfold amax. destruct (entries a); [congruence | eauto]. Qed.

Lemma entries_amap_nonempty (f : f64 -> f64) (a : ndarray) :
  entries a <> [] -> entries (amap f a) <> [].
Proof.
  rewrite entries_amap. destruct (entries a); [congruence | discriminate].
Qed.

(** On an array that is not empty, [normalization_and_zooming] returns, and
    what it returns is an elementwise image of its argument. *)
Lemma normalization_elementwise (bins : ndarray) :
  entries bins <> [] ->
  exists F, normalization_and_zooming bins = Ok (amap F bins).
Proof.
  intro Hne. unfold normalization_and_zooming, log_stage, fill_stage.
  rewrite amap_amap.
  set (f1 := fun x => np_log (where_set is_zero (Num 1) x)).
  pose proof (entries_amap_nonempty f1 bins Hne) as H1.
  destruct (amin_total _ H1) as (m1 & ->). cbn [bind]. rewrite amap_amap.
  set (f2 := fun x => where_set is_zero m1 (f1 x)).
  pose proof (entries_amap_nonempty f2 bins Hne) as H2.
  unfold scale_stage. destruct (amin_total _ H2) as (m2 & ->). cbn [bind].
  rewrite amap_amap.
  set (f3 := fun x => fsub (f2 x) m2).
  pose proof (entries_amap_nonempty f3 bins Hne) as H3.
  destruct (amax_total _ H3) as (M1 & ->). cbn [bind]. rewrite amap_amap.
  set (f4 := fun x => fdiv (f3 x) M1).
  unfold zoom_stage. rewrite !amap_amap.
  set (f5 := fun x => fsub (where_set (fun v => fltb v (Num (1/4))) (Num (1/4)) (f4 x))
                           (Num (1/4))).
  pose proof (entries_amap_nonempty f5 bins Hne) as H5.
  destruct (amax_total _ H5) as (M2 & ->). cbn [bind]. rewrite amap_amap.
  eexists. reflexivity.
Qed.

Lemma amap_well_shaped (f : f64 -> f64) (a : ndarray) :
  well_shaped a -> well_shaped (amap f a).
Proof.
  unfold well_shaped, amap; simpl. intro H. apply Forall_map.
  eapply Forall_impl; [|exact H]. intros r Hr. simpl. now rewrite length_map.
Qed.

Lemma channel_bins_shape (Zxx : spectrogram) (bin_boundaries : list Z) :
  (1 <= sg_ncols Zxx)%nat -> (2 <= length bin_boundaries)%nat ->
  exists a,
    channel_bins Zxx bin_boundaries = Ok a /\
    nrows a = (length bin_boundaries - 1)%nat /\
    ncols a = sg_ncols Zxx /\ well_shaped a.
Proof.
  intros Hc Hb. unfold channel_bins.
  destruct bin_boundaries as [|b0 bs] eqn:Eb; [simpl in Hb; lia|]. rewrite <- Eb.
  assert (Hb' : (2 <= length bin_boundaries)%nat) by (rewrite Eb; exact Hb).
  clear Hb Eb.
  set (bins := mk_ndarray _ _).
  assert (Hne : entries bins <> []).
  { unfold bins, entries; simpl.
    destruct (length bin_boundaries - 1)%nat as [|k] eqn:Ek; [lia|].
    destruct (sg_ncols Zxx) as [|c]; [lia|]. simpl. discriminate. }
  destruct (normalization_elementwise bins Hne) as (F & ->).
  eexists. split; [reflexivity|]. split; [|split].
  - unfold nrows, amap, bins; simpl. now rewrite !length_map, length_seq.
  - reflexivity.
  - apply amap_well_shaped. unfold well_shaped, bins; simpl.
    apply Forall_map. apply Forall_forall. intros i _.
    now rewrite length_map, length_seq.
Qed.

Lemma pad_and_flip_ncols (Zxx : spectrogram) : (1 <= sg_ncols (pad_and_flip Zxx))%nat.
Proof. unfold pad_and_flip; simpl. lia. Qed.

(** C6.  For a list of at least two bin boundaries and sample data holding
    the channels that are read, [wav_to_bins] returns, and every array it
    returns has [len(bin_boundaries) - 1] rows, each row holding a value for
    every frame. *)
Theorem wav_to_bins_band_count (read_wav : string -> result (Z * wavdata))
    (stft : Z -> list R -> spectrogram) (filename : string) (mono : Z)
    (bin_boundaries : list Z) (rate : Z) (channels : nat)
    (samples : list (list R)) :
  read_wav filename = Ok (rate, Data2D channels samples) ->
  ((if (mono =? 0)%Z then 2 else 1) <= channels)%nat ->
  (2 <= length bin_boundaries)%nat ->
  exists v,
    wav_to_bins read_wav stft filename mono bin_boundaries = Ok v /\
    Forall (fun a => nrows a = (length bin_boundaries - 1)%nat /\ well_shaped a)
           (arrays_of v).
Proof.
  intros Hrd Hch Hb. unfold wav_to_bins. rewrite Hrd. cbn [bind].
  unfold channel at 1. destruct (Nat.ltb_spec 0 channels); [|destruct (mono =? 0)%Z; lia].
  cbn [bind].
  destruct (channel_bins_shape
              (pad_and_flip (stft rate (map (fun s => nth 0 s 0) samples)))
              bin_boundaries (pad_and_flip_ncols _) Hb) as (a0 & -> & Hr0 & _ & Hw0).
  cbn [bind]. destruct (mono =? 0)%Z.
  - unfold channel. destruct (Nat.ltb_spec 1 channels); [|lia]. cbn [bind].
    destruct (channel_bins_shape
                (pad_and_flip (stft rate (map (fun s => nth 1 s 0) samples)))
                bin_boundaries (pad_and_flip_ncols _) Hb) as (a1 & -> & Hr1 & _ & Hw1).
    cbn [bind]. eexists. split; [reflexivity|]. simpl. repeat constructor; assumption.
  - eexists. split; [reflexivity|]. simpl. repeat constructor; assumption.
Qed.

Lemma wav_to_bins_band_count_witness :
  exists v,
    wav_to_bins stereo_file toy_stft "song.wav" 0 [4; 37; 93; 371]%Z = Ok v /\
    Forall (fun a => nrows a = (length [4; 37; 93; 371]%Z - 1)%nat /\ well_shaped a)
           (arrays_of v).
Proof.
  apply (wav_to_bins_band_count stereo_file toy_stft "song.wav" 0
           [4; 37; 93; 371]%Z 44100 2 [[0; 0]; [1; -1]]).
  - reflexivity.
  - simpl. lia.
  - simpl. lia.
Defined.

(** ** Mono mode from the command line *)

Lemma unpack2_three_rows (a : ndarray) :
  nrows a = 3%nat -> unpack2 (Single a) = Raise ValueError.
Proof.
  unfold nrows, unpack2. destruct (rows a) as [|r0 [|r1 [|r2 [|r3 t]]]];
    simpl; intro H; try discriminate; reflexivity.
Qed.

Lemma wav_to_bins_mono_2d (read_wav : string -> result (Z * wavdata))
    (stft : Z -> list R -> spectrogram) (filename : string) (rate : Z)
    (channels : nat) (samples : list (list R)) :
  read_wav filename = Ok (rate, Data2D channels samples) ->
  (1 <= channels)%nat ->
  exists a,
    wav_to_bins read_wav stft filename 1 [4; 37; 93; 371]%Z = Ok (Single a) /\
    nrows a = 3%nat.
Proof.
  intros Hrd Hch. unfold wav_to_bins. rewrite Hrd. cbn [bind].
  unfold channel. destruct (Nat.ltb_spec 0 channels); [|lia]. cbn [bind].
  destruct (channel_bins_shape
              (pad_and_flip (stft rate (map (fun s => nth 0 s 0) samples)))
              [4; 37; 93; 371]%Z (pad_and_flip_ncols _))
    as (a0 & -> & Hr0 & _); [simpl; lia|].
  cbn [bind]. exists a0. split; [reflexivity | exact Hr0].
Qed.

Lemma wav_to_bins_mono_value (read_wav : string -> result (Z * wavdata))
    (stft : Z -> list R -> spectrogram) (filename : string) (v : bins_value) :
  wav_to_bins read_wav stft filename 1 [4; 37; 93; 371]%Z = Ok v ->
  exists a, v = Single a /\ nrows a = 3%nat.
Proof.
  intro H. destruct (read_wav filename) as [[rate data]|e] eqn:Hrd.
  - destruct data as [s|channels samples].
    + unfold wav_to_bins in H. rewrite Hrd in H. discriminate.
    + destruct (Nat.ltb_spec 0 channels) as [Hc|Hc].
      * destruct (wav_to_bins_mono_2d read_wav stft filename rate channels
                    samples Hrd Hc) as (a & Ha & Hr).
        rewrite Ha in H. injection H as <-. now exists a.
      * unfold wav_to_bins in H. rewrite Hrd in H. cbn [bind] in H.
        unfold channel in H. destruct (Nat.ltb_spec 0 channels); [lia|].
        discriminate.
  - unfold wav_to_bins in H. rewrite Hrd in H. discriminate.
Qed.

(** C4 (amended).  On a command line whose mono flag is "1" nothing is ever
    rendered.  When the decoded samples are two-dimensional with at least
    one channel, [wav_to_bins] returns a single array of three rows, not a
    pair, and unpacking it into two targets raises ValueError, which is how
    an otherwise accepted command line ends. *)
Theorem mono_flag_never_renders (read_wav : string -> result (Z * wavdata))
    (stft : Z -> list R -> spectrogram) (py_int : string -> result Z)
    (random_random : nat -> R) (args : list string) :
  arg args 2 = "1"%string ->
  (forall frames, main read_wav stft py_int random_random args <> Ok frames) /\
  (forall rate channels samples,
     read_wav (arg args 1) = Ok (rate, Data2D channels samples) ->
     (1 <= channels)%nat ->
     (exists a,
        wav_to_bins read_wav stft (arg args 1) 1 [4; 37; 93; 371]%Z
        = Ok (Single a) /\
        nrows a = 3%nat /\ unpack2 (Single a) = Raise ValueError) /\
     (length args = 6%nat ->
      last4 (arg args 1) = ".wav"%string ->
      last4 (arg args 3) = ".mp4"%string ->
      last4 (arg args 4) = ".mp4"%string ->
      is_flag (arg args 5) = true ->
      main read_wav stft py_int random_random args = Raise ValueError)).
Proof.
  intro Hflag. split.
  - intros frames H. unfold main in H. rewrite Hflag in H.
    change (flag_value "1") with 1%Z in H.
    repeat match type of H with
           | context [py_assert ?b] =>
               destruct b; cbn [py_assert bind] in H; [|discriminate]
           end.
    destruct (if (length args =? 6)%nat then Ok 15%Z else py_int (arg args 6))
      as [w|e]; cbn [bind] in H; [|discriminate].
    destruct (wav_to_bins read_wav stft (arg args 1) 1 [4; 37; 93; 371]%Z)
      as [v|e] eqn:Ev; cbn [bind] in H; [|discriminate].
    destruct (wav_to_bins_mono_value _ _ _ _ Ev) as (a & -> & Hr).
    rewrite (unpack2_three_rows a Hr) in H. discriminate.
  - intros rate channels samples Hrd Hch.
    destruct (wav_to_bins_mono_2d read_wav stft (arg args 1) rate channels
                samples Hrd Hch) as (a & Ha & Hr).
    split.
    + exists a. split; [exact Ha|]. split; [exact Hr|].
      now apply unpack2_three_rows.
    + intros Hlen Hwav Hmp1 Hmp2 Hcc. unfold main.
      rewrite Hlen, Hwav, Hflag, Hmp1, Hmp2, Hcc.
      change (flag_value "1") with 1%Z. cbn [bind Nat.eqb orb py_assert].
      simpl. rewrite Ha. cbn [bind]. rewrite (unpack2_three_rows a Hr).
      reflexivity.
Qed.

Lemma mono_flag_never_renders_witness :
  (forall frames, main stereo_file toy_stft no_int tenths mono_args <> Ok frames) /\
  (forall rate channels samples,
     stereo_file (arg mono_args 1) = Ok (rate, Data2D channels samples) ->
     (1 <= channels)%nat ->
     (exists a,
        wav_to_bins stereo_file toy_stft (arg mono_args 1) 1 [4; 37; 93; 371]%Z
        = Ok (Single a) /\
        nrows a = 3%nat /\ unpack2 (Single a) = Raise ValueError) /\
     (length mono_args = 6%nat ->
      last4 (arg mono_args 1) = ".wav"%string ->
      last4 (arg mono_args 3) = ".mp4"%string ->
      last4 (arg mono_args 4) = ".mp4"%string ->
      is_flag (arg mono_args 5) = true ->
      main stereo_file toy_stft no_int tenths mono_args = Raise ValueError)).
Proof.
  apply (mono_flag_never_renders stereo_file toy_stft no_int tenths mono_args).
  reflexivity.
Defined.

(** C4, as stated, fails on a command line with mono flag "1" whose file has
    a single channel: the samples are one-dimensional, [data[:, 0]] raises
    IndexError inside [wav_to_bins], which therefore returns no array, and
    the run ends with that IndexError, before any unpacking. *)
Lemma mono_file_counterexample :
  arg mono_args 2 = "1"%string /\
  single_channel_file (arg mono_args 1) = Ok (44100%Z, Data1D [0; 1]) /\
  wav_to_bins single_channel_file toy_stft (arg mono_args 1) 1
              [4; 37; 93; 371]%Z = Raise IndexError /\
  main single_channel_file toy_stft no_int tenths mono_args = Raise IndexError.
Proof. repeat split; reflexivity. Qed.

(** * Further properties *)

(** ** [normalization_and_zooming]: empty, nan and degenerate arrays *)

(** X1.  On an array without entries (no rows, or rows without columns)
    [normalization_and_zooming] raises ValueError: the minimum of line 90
    has nothing to reduce. *)
Theorem normalization_zero_size (bins : ndarray) :
  entries bins = [] -> normalization_and_zooming bins = Raise ValueError.
Proof.
  intro H. unfold normalization_and_zooming, fill_stage, log_stage, amin.
  rewrite !entries_amap, H. reflexivity.
Qed.

Lemma normalization_zero_size_witness :
  normalization_and_zooming no_bands = Raise ValueError.
Proof. apply (normalization_zero_size no_bands). reflexivity. Defined.

(** X2.  On an array with at least one entry [normalization_and_zooming]
    raises nothing, whatever the entries (nan and negative ones included),
    and returns an array of the same shape: the same number of columns and
    rows of the same lengths. *)
Theorem normalization_keeps_shape (bins : ndarray) :
  entries bins <> [] ->
  exists out,
    normalization_and_zooming bins = Ok out /\
    ncols out = ncols bins /\ nrows out = nrows bins /\
    map (@length f64) (rows out) = map (@length f64) (rows bins).
Proof.
  intro H. destruct (normalization_elementwise bins H) as (F & ->).
  eexists. split; [reflexivity|]. unfold nrows, amap; simpl.
  rewrite length_map, map_map. repeat split.
  apply map_ext. intro r. apply length_map.
Qed.

Lemma normalization_keeps_shape_witness :
  exists out,
    normalization_and_zooming with_negative = Ok out /\
    ncols out = ncols with_negative /\ nrows out = nrows with_negative /\
    map (@length f64) (rows out) = map (@length f64) (rows with_negative).
Proof. apply (normalization_keeps_shape with_negative). discriminate. Defined.

Lemma fold_fmin_nan (l : list f64) : fold_left fmin l NaN = NaN.
Proof. induction l as [|x l IH]; simpl; [reflexivity | exact IH]. Qed.

Lemma fold_fmin_with_nan (l : list f64) (x : f64) :
  In NaN (x :: l) -> fold_left fmin l x = NaN.
Proof.
  revert x; induction l as [|y l IH]; intros x H.
  - destruct H as [->|[]]. reflexivity.
  - simpl. destruct H as [->|[->|H]].
    + apply fold_fmin_nan.
    + destruct x; simpl; apply fold_fmin_nan.
    + apply IH. now right.
Qed.

Lemma amin_with_nan (a : ndarray) : In NaN (entries a) -> amin a = Ok NaN.
Proof.
  unfold amin. destruct (entries a) as [|x l]; [intros []|].
  intro H. now rewrite fold_fmin_with_nan.
Qed.

Lemma zoom_stage_nan_like (a : ndarray) :
  entries a <> [] -> zoom_stage (nan_like a) = Ok (nan_like a).
Proof.
  intro H. unfold zoom_stage, nan_like. rewrite !amap_amap.
  assert (Hmax : amax (amap (fun _ => fsub
                   (where_set (fun x => fltb x (Num (1/4))) (Num (1/4)) NaN)
                   (Num (1/4))) a) = Ok NaN) by (now apply amax_nan_like).
  rewrite Hmax. simpl. now rewrite amap_amap.
Qed.

(** Lines 90-96 on an array that holds a nan. *)
Lemma nan_spreads (a : ndarray) :
  In NaN (entries a) ->
  exists filled,
    fill_stage a = Ok filled /\ scale_stage filled = Ok (nan_like a) /\
    zoom_stage (nan_like a) = Ok (nan_like a).
Proof.
  intro H. exists (amap (where_set is_zero NaN) a). split; [|split].
  - unfold fill_stage. now rewrite amin_with_nan.
  - unfold scale_stage. rewrite amin_with_nan.
    + cbn [bind]. rewrite amap_amap.
      assert (Hmax : amax (amap (fun x => fsub (where_set is_zero NaN x) NaN) a)
                     = Ok NaN).
      { rewrite (amap_ext _ (fun _ => NaN)).
        - apply amax_nan_like. intro E. rewrite E in H. destruct H.
        - intro x. destruct (where_set is_zero NaN x); reflexivity. }
      rewrite Hmax. cbn [bind]. rewrite amap_amap. f_equal. apply amap_ext.
      intro x. destruct (where_set is_zero NaN x); reflexivity.
    + rewrite entries_amap. apply in_map_iff. exists NaN. split; [reflexivity | exact H].
  - apply zoom_stage_nan_like. intro E. rewrite E in H. destruct H.
Qed.

(** X3.  One nan entry, or one negative entry (whose logarithm is nan),
    turns the whole result into nan: [normalization_and_zooming] returns
    the array of the same shape with nan everywhere. *)
Theorem normalization_nan_spreads (bins : ndarray) :
  (exists x, In x (entries bins) /\ (x = NaN \/ exists r, x = Num r /\ r < 0)) ->
  normalization_and_zooming bins = Ok (nan_like bins).
Proof.
  intros (x & Hx & Hbad).
  assert (Hlog : In NaN (entries (log_stage bins))).
  { unfold log_stage. rewrite amap_amap, entries_amap. apply in_map_iff.
    exists x. split; [|exact Hx].
    destruct Hbad as [->|(r & -> & Hr)]; [reflexivity|].
    unfold where_set, is_zero, feqb, np_log.
    destruct (Req_dec_T r 0); [lra|]. destruct (Rlt_dec 0 r); [lra | reflexivity]. }
  destruct (nan_spreads _ Hlog) as (filled & Hf & Hs & Hz).
  unfold normalization_and_zooming. rewrite Hf. cbn [bind]. rewrite Hs.
  cbn [bind]. rewrite Hz. f_equal. unfold nan_like, log_stage.
  now rewrite !amap_amap.
Qed.

Lemma normalization_nan_spreads_witness :
  normalization_and_zooming with_negative = Ok (nan_like with_negative).
Proof.
  apply (normalization_nan_spreads with_negative).
  exists (Num (-1)). split; [simpl; auto|]. right. exists (-1). split; [reflexivity | lra].
Defined.

Lemma amap_ext_in (f g : f64 -> f64) (a : ndarray) :
  (forall x, In x (entries a) -> f x = g x) -> amap f a = amap g a.
Proof.
  intro H. unfold amap. f_equal. apply map_ext_in. intros r Hr.
  apply map_ext_in. intros x Hx. apply H. unfold entries.
  apply in_concat. exists r. split; assumption.
Qed.

Lemma fill_stage_formula (a : ndarray) (ls : list R) (m : R) :
  entries a = map Num ls -> In m ls -> (forall y, In y ls -> m <= y) ->
  fill_stage a = Ok (amap (where_set is_zero (Num m)) a) /\
  entries (amap (where_set is_zero (Num m)) a) = map Num (map (fill_level m) ls).
Proof.
  intros E Hm Hle. split.
  - unfold fill_stage. now rewrite (amin_char a ls m E Hm Hle).
  - apply entries_amap_num; [exact E|]. intros l _.
    unfold where_set, is_zero, feqb, fill_level. destruct (Req_dec_T l 0); reflexivity.
Qed.

Lemma log_magnitude_nonpos_cases (c r : R) :
  0 <= c <= 1 -> r = 0 \/ r = 1 \/ r = c ->
  log_magnitude r = 0 \/ (log_magnitude r = log_magnitude c /\ log_magnitude c < 0).
Proof.
  intros Hc Hr. unfold log_magnitude.
  destruct Hr as [-> | [-> | ->]].
  - left. destruct (Req_dec_T 0 0); [apply ln_1 | lra].
  - left. destruct (Req_dec_T 1 0); [lra | apply ln_1].
  - destruct (Req_dec_T c 0); [left; apply ln_1|].
    destruct (Req_dec_T c 1) as [->|]; [left; apply ln_1|].
    right. split; [reflexivity|]. rewrite <- ln_1. apply ln_increasing; lra.
Qed.

(** Magnitudes 0, 1 and one level up to 1: the array after line 90 is
    constant. *)
Lemma degenerate_levels_nan (bins : ndarray) (c : R) :
  entries bins <> [] ->
  0 <= c <= 1 ->
  Forall (fun x => x = Num 0 \/ x = Num 1 \/ x = Num c) (entries bins) ->
  normalization_and_zooming bins = Ok (nan_like bins).
Proof.
  intros Hne Hc Hall.
  assert (Hfin : nonneg_finite bins).
  { unfold nonneg_finite. eapply Forall_impl; [|exact Hall].
    intros x [-> | [-> | ->]]; eexists; (split; [reflexivity | lra]). }
  destruct (finite_entries _ _ Hfin) as (xs & E & Hpos).
  assert (Hxs : forall r, In r xs -> r = 0 \/ r = 1 \/ r = c).
  { intros r Hr. rewrite Forall_forall in Hall.
    destruct (Hall (Num r)) as [H|[H|H]];
      [rewrite E; now apply in_map | | |]; injection H as Heq; auto. }
  pose proof (log_stage_num bins xs E Hpos) as Elog.
  change (fun x => ln (if Req_dec_T x 0 then 1 else x)) with log_magnitude in Elog.
  assert (Hls : map log_magnitude xs <> []).
  { destruct xs; [rewrite E in Hne; contradiction | discriminate]. }
  destruct (list_min_exists _ Hls) as (m & Hm & Hle).
  destruct (fill_stage_formula _ _ m Elog Hm Hle) as (Hfill & Efill).
  assert (Hconst : forall p, In p (map (fill_level m) (map log_magnitude xs)) -> p = m).
  { intros p Hp. apply in_map_iff in Hp. destruct Hp as (l & <- & Hl).
    pose proof (Hle l Hl) as Hml.
    apply in_map_iff in Hl. destruct Hl as (r & <- & Hr).
    apply in_map_iff in Hm. destruct Hm as (r0 & Hr0 & Hin0).
    unfold fill_level. destruct (Req_dec_T (log_magnitude r) 0) as [e|n]; [reflexivity|].
    destruct (log_magnitude_nonpos_cases c r Hc (Hxs r Hr)) as [H0|[Hrc Hneg]];
      [contradiction|].
    destruct (log_magnitude_nonpos_cases c r0 Hc (Hxs r0 Hin0)) as [H0|[Hrc0 _]]; lra. }
  destruct (constant_gives_nan _ _ m Efill) as (Hs & Hz);
    [destruct xs; [contradiction Hls; reflexivity | discriminate] | exact Hconst |].
  unfold normalization_and_zooming. rewrite Hfill. cbn [bind]. rewrite Hs.
  cbn [bind]. rewrite Hz. f_equal. unfold nan_like, log_stage.
  now rewrite !amap_amap.
Qed.

(** X4.  When the magnitudes take no other values than 0, 1 and one level
    [c] between 0 and 1 (silence, a constant signal, or both), line 90
    leaves a constant array, line 92 divides 0 by 0, and
    [normalization_and_zooming] returns nan in every entry. *)
Theorem normalization_degenerate_levels (bins : ndarray) (c : R) :
  entries bins <> [] ->
  0 <= c <= 1 ->
  Forall (fun x => x = Num 0 \/ x = Num 1 \/ x = Num c) (entries bins) ->
  normalization_and_zooming bins = Ok (nan_like bins).
Proof. apply degenerate_levels_nan. Qed.

Lemma normalization_degenerate_levels_witness :
  normalization_and_zooming three_levels = Ok (nan_like three_levels).
Proof.
  apply (normalization_degenerate_levels three_levels (1/2)).
  - discriminate.
  - lra.
  - unfold three_levels, entries; simpl.
    repeat (apply Forall_cons; [auto|]). apply Forall_nil.
Defined.

(** ** [normalization_and_zooming] entry by entry *)

Lemma scale_stage_formula (a : ndarray) (ps : list R) (m M : R) :
  entries a = map Num ps ->
  In m ps -> (forall y, In y ps -> m <= y) ->
  In M ps -> (forall y, In y ps -> y <= M) ->
  m < M ->
  scale_stage a = Ok (amap (fun v => fdiv (fsub v (Num m)) (Num (M - m))) a) /\
  entries (amap (fun v => fdiv (fsub v (Num m)) (Num (M - m))) a)
  = map Num (map (fun p => (p - m) / (M - m)) ps).
Proof.
  intros E Hm Hmle HM HMge HmM. split.
  - unfold scale_stage. rewrite (amin_char a ps m E Hm Hmle). cbn [bind].
    rewrite (amax_char _ (map (fun p => p - m) ps) (M - m)).
    + cbn [bind]. now rewrite amap_amap.
    + apply entries_amap_num; [exact E | reflexivity].
    + now apply (in_map (fun p => p - m)).
    + intros z Hz. apply in_map_iff in Hz. destruct Hz as (p & <- & Hp).
      pose proof (HMge p Hp). lra.
  - apply entries_amap_num; [exact E|]. intros p _.
    unfold fsub. apply fdiv_num. lra.
Qed.

Lemma normalized_level_monotone (m M x y : R) :
  m < M -> 0 < x -> x <= y -> x <> 1 -> y <> 1 ->
  normalized_level m M x <= normalized_level m M y.
Proof.
  intros HmM Hx Hxy Hx1 Hy1. unfold normalized_level, log_magnitude, fill_level.
  destruct (Req_dec_T x 0); [lra|]. destruct (Req_dec_T y 0); [lra|].
  assert (Hlx : ln x <> 0).
  { intro H0. apply Hx1. apply ln_inv; [lra | lra | now rewrite ln_1]. }
  assert (Hly : ln y <> 0).
  { intro H0. apply Hy1. apply ln_inv; [lra | lra | now rewrite ln_1]. }
  destruct (Req_dec_T (ln x) 0); [contradiction|].
  destruct (Req_dec_T (ln y) 0); [contradiction|].
  assert (Hln : ln x <= ln y).
  { destruct (Req_dec_T x y) as [->|]; [lra|]. left. apply ln_increasing; lra. }
  assert (Hi : 0 < / (M - m)) by (apply Rinv_0_lt_compat; lra).
  assert (Hq : (ln x - m) / (M - m) <= (ln y - m) / (M - m)) by (unfold Rdiv; nra).
  pose proof (Rle_max_compat_r _ _ (1/4) Hq) as Hmax.
  lra.
Qed.

Lemma normalized_level_floor (m M l : R) :
  m < M -> log_magnitude l = 0 -> normalized_level m M l = 0.
Proof.
  intros HmM Hl. unfold normalized_level, fill_level. rewrite Hl.
  destruct (Req_dec_T 0 0); [|lra].
  replace ((m - m) / (M - m)) with 0 by (field; lra).
  rewrite Rmax_right by lra. lra.
Qed.

(** The result as one function applied entry by entry. *)
Lemma normalization_formula (bins filled : ndarray) :
  nonneg_finite bins ->
  fill_stage (log_stage bins) = Ok filled ->
  (exists x y, In x (entries filled) /\ In y (entries filled) /\ x <> y) ->
  exists F : R -> R,
    normalization_and_zooming bins = Ok (amap (on_finite F) bins) /\
    F 0 = 0 /\ F 1 = 0 /\
    (forall x y, 0 < x -> x <= y -> x <> 1 -> y <> 1 -> F x <= F y) /\
    (forall r, In (Num r) (entries bins) -> 0 <= F r <= 1).
Proof.
  intros Hfin Hfill (x & y & Hx & Hy & Hxy).
  destruct (finite_entries _ _ Hfin) as (xs & E & Hpos).
  pose proof (log_stage_num bins xs E Hpos) as Elog.
  change (fun x => ln (if Req_dec_T x 0 then 1 else x)) with log_magnitude in Elog.
  assert (Hls : map log_magnitude xs <> []).
  { intro H0. unfold fill_stage, amin in Hfill. rewrite Elog, H0 in Hfill.
    discriminate. }
  destruct (list_min_exists _ Hls) as (m & Hm & Hle).
  destruct (fill_stage_formula _ _ m Elog Hm Hle) as (Hfill' & Efill).
  rewrite Hfill' in Hfill. injection Hfill as <-.
  set (ps := map (fill_level m) (map log_magnitude xs)) in *.
  assert (Hmps : In m ps).
  { unfold ps. apply in_map_iff. exists m. split; [|exact Hm].
    unfold fill_level. destruct (Req_dec_T m 0); reflexivity. }
  assert (Hmle : forall p, In p ps -> m <= p).
  { intros p Hp. unfold ps in Hp. apply in_map_iff in Hp.
    destruct Hp as (l & <- & Hl). unfold fill_level.
    destruct (Req_dec_T l 0); [lra | now apply Hle]. }
  assert (Hps : ps <> []) by (intro H0; rewrite H0 in Hmps; destruct Hmps).
  destruct (list_max_exists ps Hps) as (M & HM & HMge).
  assert (HmM : m < M).
  { rewrite Efill in Hx, Hy.
    apply in_map_iff in Hx. destruct Hx as (px & <- & Hpx).
    apply in_map_iff in Hy. destruct Hy as (py & <- & Hpy).
    pose proof (Hmle px Hpx). pose proof (Hmle py Hpy).
    pose proof (HMge px Hpx). pose proof (HMge py Hpy).
    destruct (Rle_lt_dec M m); [|assumption].
    exfalso. apply Hxy. f_equal. lra. }
  destruct (scale_stage_formula _ ps m M Efill Hmps Hmle HM HMge HmM) as (Hs & Es).
  set (n := amap (fun v => fdiv (fsub v (Num m)) (Num (M - m)))
                 (amap (where_set is_zero (Num m)) (log_stage bins))) in *.
  destruct (zoom_stage_num n (map (fun p => (p - m) / (M - m)) ps) Es)
    as (out & Hz & _ & _ & Hrows & Hcols).
  { apply in_map_iff. exists m. split; [field; lra | exact Hmps]. }
  { apply in_map_iff. exists M. split; [field; lra | exact HM]. }
  { intros q Hq. apply in_map_iff in Hq. destruct Hq as (p & <- & Hp).
    apply unit_fraction; [|exact HmM]. split; [now apply Hmle | now apply HMge]. }
  assert (Hout : out = amap clip_rescale n).
  { destruct out as [c r]. unfold amap. simpl in *. now subst. }
  exists (normalized_level m M). split; [|split; [|split; [|split]]].
  - unfold normalization_and_zooming. rewrite Hfill'. cbn [bind]. rewrite Hs.
    cbn [bind]. rewrite Hz, Hout. f_equal. unfold n, log_stage.
    rewrite !amap_amap. apply amap_ext_in. intros v Hv.
    rewrite E in Hv. apply in_map_iff in Hv. destruct Hv as (r & <- & Hr).
    rewrite Forall_forall in Hpos. specialize (Hpos r Hr).
    unfold on_finite, normalized_level, log_magnitude, fill_level.
    unfold where_set at 2. unfold is_zero at 2. unfold feqb.
    destruct (Req_dec_T r 0) as [e|ne].
    + unfold np_log. destruct (Rlt_dec 0 1); [|lra].
      unfold where_set, is_zero, feqb. destruct (Req_dec_T (ln 1) 0); unfold fsub;
        rewrite fdiv_num by lra; reflexivity.
    + unfold np_log. destruct (Rlt_dec 0 r); [|lra].
      unfold where_set, is_zero, feqb. destruct (Req_dec_T (ln r) 0); unfold fsub;
        rewrite fdiv_num by lra; reflexivity.
  - apply normalized_level_floor; [exact HmM|]. unfold log_magnitude.
    destruct (Req_dec_T 0 0); [apply ln_1 | lra].
  - apply normalized_level_floor; [exact HmM|]. unfold log_magnitude.
    destruct (Req_dec_T 1 0); [lra | apply ln_1].
  - intros a b. now apply normalized_level_monotone.
  - intros r Hr. rewrite E in Hr. apply in_map_iff in Hr.
    destruct Hr as (r' & Heq & Hr'). injection Heq as ->.
    assert (Hp : In (fill_level m (log_magnitude r)) ps).
    { unfold ps. apply in_map. now apply in_map. }
    pose proof (unit_fraction _ m M (conj (Hmle _ Hp) (HMge _ Hp)) HmM) as Hu.
    unfold normalized_level. unfold Rmax.
    destruct (Rle_dec ((fill_level m (log_magnitude r) - m) / (M - m)) (1/4)); lra.
Qed.

(** X5.  Under the conditions of C1 (finite non-negative magnitudes, two
    different values left by line 90) the result is one increasing function
    applied entry by entry: magnitudes 0 and 1 are both sent to 0, a larger
    magnitude among the others never gets a smaller value, and the value of
    every entry of the array lies between 0 and 1. *)
Theorem normalization_order_preserving (bins filled : ndarray) :
  nonneg_finite bins ->
  fill_stage (log_stage bins) = Ok filled ->
  (exists x y, In x (entries filled) /\ In y (entries filled) /\ x <> y) ->
  exists F : R -> R,
    normalization_and_zooming bins = Ok (amap (on_finite F) bins) /\
    F 0 = 0 /\ F 1 = 0 /\
    (forall x y, 0 < x -> x <= y -> x <> 1 -> y <> 1 -> F x <= F y) /\
    (forall r, In (Num r) (entries bins) -> 0 <= F r <= 1).
Proof. apply normalization_formula. Qed.

Lemma normalization_order_preserving_witness :
  exists F : R -> R,
    normalization_and_zooming two_tones = Ok (amap (on_finite F) two_tones) /\
    F 0 = 0 /\ F 1 = 0 /\
    (forall x y, 0 < x -> x <= y -> x <> 1 -> y <> 1 -> F x <= F y) /\
    (forall r, In (Num r) (entries two_tones) -> 0 <= F r <= 1).
Proof.
  apply (normalization_order_preserving two_tones
           (mk_ndarray 2 [[Num 0; Num (ln 2)]])).
  - repeat constructor; eexists; (split; [reflexivity | lra]).
  - exact fill_stage_two_tones.
  - exists (Num 0), (Num (ln 2)). simpl. repeat split; auto.
    intro H. injection H as H. pose proof ln_two_pos. lra.
Defined.

(** ** [find_points]: what every result looks like *)


Lemma emphasis_loop_result (test1 : list f64) (threshold : R) (horizon : Z)
    (frames keep out : list nat) :
  emphasis_loop test1 threshold horizon frames keep = Ok out ->
  out = keep ++ filter (flagged test1 threshold horizon) frames /\
  forall i, In i frames -> exists b, emphasis_step test1 threshold horizon i = Ok b.
Proof.
  revert keep; induction frames as [|i frames IH]; intros keep H; simpl in H.
  - injection H as <-. split; [now rewrite app_nil_r | intros i []].
  - destruct (emphasis_step test1 threshold horizon i) as [b|e] eqn:Ei;
      [|discriminate].
    simpl in H. apply IH in H. destruct H as (-> & Hall). split.
    + simpl. unfold flagged at 2. rewrite Ei.
      destruct b; [now rewrite <- app_assoc | reflexivity].
    + intros j [<-|Hj]; [eauto | now apply Hall].
Qed.

Lemma filter_seq_sorted (p : nat -> bool) (s k : nat) :
  StronglySorted lt (filter p (seq s k)).
Proof.
  revert s; induction k as [|k IH]; intro s; simpl; [constructor|].
  destruct (p s); [|apply IH].
  constructor; [apply IH|]. apply Forall_forall. intros j Hj.
  apply filter_In in Hj. destruct Hj as [Hj _]. apply in_seq in Hj. lia.
Qed.

(** X6.  Whenever [find_points] returns, for any threshold and any horizon
    (negative ones included), the list holds frame indices of the curve in
    strictly increasing order: no index twice, none out of range. *)
Theorem find_points_sorted_frames (g : globals) (bins0 : ndarray)
    (threshold : R) (horizon : Z) (keep : list nat) :
  g_bins0 g = Some bins0 ->
  find_points g threshold horizon = Ok keep ->
  StronglySorted lt keep /\ Forall (fun i => (i < ncols bins0)%nat) keep.
Proof.
  intros Hg H. unfold find_points in H. rewrite Hg in H.
  apply emphasis_loop_result in H. destruct H as (-> & _). simpl.
  split; [apply filter_seq_sorted|].
  apply Forall_forall. intros i Hi. apply filter_In in Hi. destruct Hi as [Hi _].
  apply in_seq in Hi. unfold np_average_axis0 in Hi.
  rewrite length_map, length_seq in Hi. lia.
Qed.

Lemma find_points_sorted_frames_witness :
  StronglySorted lt [0%nat] /\ Forall (fun i => (i < ncols step_bins)%nat) [0%nat].
Proof.
  apply (find_points_sorted_frames (only_bins0 step_bins) step_bins (27/30) 7).
  - reflexivity.
  - apply find_points_step; [now right; right | lra].
Defined.

(** X7.  With horizon 0 every window is the frame alone, and on a curve of
    at least one frame [find_points] raises ZeroDivisionError at the first
    frame (line 115 divides by the number of other frames). *)
Theorem find_points_horizon_zero (g : globals) (bins0 : ndarray) (threshold : R) :
  g_bins0 g = Some bins0 ->
  (1 <= ncols bins0)%nat ->
  find_points g threshold 0 = Raise ZeroDivisionError.
Proof.
  intros Hg Hn. unfold find_points. rewrite Hg.
  set (curve := np_average_axis0 bins0).
  assert (Hlen : length curve = ncols bins0)
    by (unfold curve, np_average_axis0; now rewrite length_map, length_seq).
  destruct (length curve) as [|n] eqn:En; [lia|].
  change (seq 0 (S n)) with (0%nat :: seq 1 n). cbn [emphasis_loop].
  unfold emphasis_step. rewrite window_slice by lia. rewrite length_map.
  unfold window_frames. rewrite length_seq, En.
  replace (Z.of_nat
             (Z.to_nat (Z.min (Z.of_nat (S n) - 1) (Z.of_nat 0 + 0)) + 1 -
              Z.to_nat (Z.max 0 (Z.of_nat 0 - 0))) - 1)%Z with 0%Z by lia.
  reflexivity.
Qed.

Lemma find_points_horizon_zero_witness :
  find_points (only_bins0 step_bins) (27/30) 0 = Raise ZeroDivisionError.
Proof.
  apply (find_points_horizon_zero (only_bins0 step_bins) step_bins (27/30)).
  - reflexivity.
  - simpl. lia.
Defined.

(** ** [find_points]: the frames it keeps *)

Lemma fraction_bounds (curve : list f64) (horizon : Z) (i : nat) :
  (1 <= horizon)%Z -> (i < length curve)%nat -> (2 <= length curve)%nat ->
  0 <= fraction_of_others curve horizon i <= 1.
Proof.
  intros Hh Hi Hn. unfold fraction_of_others.
  pose proof (others_length (length curve) horizon i Hh Hi Hn) as Hlen.
  set (w := filter (fun j => negb (j =? i)%nat) (window_frames (length curve) horizon i)) in *.
  pose proof (filter_length_le (geq_at curve i) w) as Hle.
  assert (H0 : 0 < INR (length w)) by (apply lt_0_INR; lia).
  assert (Ha : 0 <= INR (length (filter (geq_at curve i) w))) by apply pos_INR.
  assert (Hb : INR (length (filter (geq_at curve i) w)) <= INR (length w))
    by (apply le_INR; exact Hle).
  assert (Hi' : 0 < / INR (length w)) by (now apply Rinv_0_lt_compat).
  assert (Hone : INR (length w) * / INR (length w) = 1) by (apply Rinv_r; lra).
  unfold Rdiv. split; nra.
Qed.

Lemma fraction_one (curve : list f64) (horizon : Z) (i : nat) :
  (1 <= horizon)%Z -> (i < length curve)%nat -> (2 <= length curve)%nat ->
  (forall j, In j (window_frames (length curve) horizon i) -> j <> i ->
             geq_at curve i j = true) ->
  fraction_of_others curve horizon i = 1.
Proof.
  intros Hh Hi Hn Hall. unfold fraction_of_others.
  pose proof (others_length (length curve) horizon i Hh Hi Hn) as Hlen.
  rewrite forallb_filter_id.
  - apply Rinv_r. apply not_0_INR. lia.
  - apply forallb_forall. intros j Hj. apply filter_In in Hj.
    destruct Hj as [Hw Hne]. apply Hall; [exact Hw|].
    intros ->. rewrite Nat.eqb_refl in Hne. discriminate.
Qed.

Lemma fraction_zero (curve : list f64) (horizon : Z) (i : nat) :
  (forall j, In j (window_frames (length curve) horizon i) -> j <> i ->
             geq_at curve i j = false) ->
  fraction_of_others curve horizon i = 0.
Proof.
  intro Hall. unfold fraction_of_others.
  rewrite filter_none; [simpl; unfold Rdiv; apply Rmult_0_l|].
  intros j Hj. apply filter_In in Hj. destruct Hj as [Hw Hne].
  apply Hall; [exact Hw|]. intros ->. rewrite Nat.eqb_refl in Hne. discriminate.
Qed.

(** X8.  What the detector keeps (finite curve of at least two frames,
    horizon at least 1): a frame that no other frame of its window falls
    below is flagged at every threshold up to 1, and a frame that every
    other frame of its window falls below is flagged only at thresholds up
    to 0.  The frames kept at a positive threshold are the dips of the
    curve, not its peaks. *)
Theorem find_points_keeps_dips (g : globals) (bins0 : ndarray) (threshold : R)
    (horizon : Z) (i : nat) :
  g_bins0 g = Some bins0 ->
  Forall finite (np_average_axis0 bins0) ->
  (1 <= horizon)%Z ->
  (2 <= length (np_average_axis0 bins0))%nat ->
  (i < length (np_average_axis0 bins0))%nat ->
  exists keep,
    find_points g threshold horizon = Ok keep /\
    ((forall j, In j (window_frames (length (np_average_axis0 bins0)) horizon i) ->
                j <> i -> geq_at (np_average_axis0 bins0) i j = true) ->
     (In i keep <-> threshold <= 1)) /\
    ((forall j, In j (window_frames (length (np_average_axis0 bins0)) horizon i) ->
                j <> i -> geq_at (np_average_axis0 bins0) i j = false) ->
     (In i keep <-> threshold <= 0)).
Proof.
  intros Hg Hf Hh Hn Hi. unfold find_points. rewrite Hg.
  set (curve := np_average_axis0 bins0) in *.
  destruct (emphasis_loop_finite curve threshold horizon Hf Hh) as (keep & Hk & Hm);
    [lia|].
  exists keep. split; [exact Hk|]. split; intro Hall; rewrite Hm.
  - rewrite fraction_one by assumption. tauto.
  - rewrite fraction_zero by assumption. tauto.
Qed.

Lemma find_points_keeps_dips_witness :
  exists keep,
    find_points (only_bins0 step_bins) (27/30) 1 = Ok keep /\
    ((forall j, In j (window_frames (length (np_average_axis0 step_bins)) 1 1) ->
                j <> 1%nat -> geq_at (np_average_axis0 step_bins) 1 j = true) ->
     (In 1%nat keep <-> 27/30 <= 1)) /\
    ((forall j, In j (window_frames (length (np_average_axis0 step_bins)) 1 1) ->
                j <> 1%nat -> geq_at (np_average_axis0 step_bins) 1 j = false) ->
     (In 1%nat keep <-> 27/30 <= 0)).
Proof.
  apply (find_points_keeps_dips (only_bins0 step_bins) step_bins (27/30) 1 1).
  - reflexivity.
  - rewrite average_step_bins. exact finite_step_curve.
  - lia.
  - rewrite average_step_bins. simpl. lia.
  - rewrite average_step_bins. simpl. lia.
Defined.

(** X9.  On a flat curve (every frame the same finite value, at least two
    frames, horizon at least 1) every frame is flagged at any threshold up
    to 1: [find_points] returns all the frame indices. *)
Theorem find_points_flat_curve (g : globals) (bins0 : ndarray) (threshold : R)
    (horizon : Z) (c : R) :
  g_bins0 g = Some bins0 ->
  Forall (fun x => x = Num c) (np_average_axis0 bins0) ->
  (1 <= horizon)%Z ->
  (2 <= ncols bins0)%nat ->
  threshold <= 1 ->
  find_points g threshold horizon = Ok (seq 0 (ncols bins0)).
Proof.
  intros Hg Hflat Hh Hn Ht.
  assert (Hlen : length (np_average_axis0 bins0) = ncols bins0)
    by (unfold np_average_axis0; now rewrite length_map, length_seq).
  assert (Hf : Forall finite (np_average_axis0 bins0)).
  { eapply Forall_impl; [|exact Hflat]. intros x ->. now exists c. }
  rewrite (find_points_finite g bins0 threshold horizon Hg Hf Hh) by lia.
  rewrite Hlen. f_equal. apply forallb_filter_id. apply forallb_forall.
  intros i Hi. apply in_seq in Hi. apply Rle_bool_true.
  rewrite fraction_one; [exact Ht | exact Hh | lia | lia |].
  intros j Hj _. apply window_frames_spec in Hj; [|lia|lia].
  rewrite Forall_forall in Hflat. unfold geq_at.
  rewrite (Hflat (nth j _ NaN)) by (apply nth_In; lia).
  rewrite (Hflat (nth i _ NaN)) by (apply nth_In; lia).
  apply fgeb_refl. now exists c.
Qed.

Lemma average_flat_bins :
  np_average_axis0 flat_bins = [Num (1/2); Num (1/2); Num (1/2)].
Proof.
  unfold np_average_axis0, flat_bins, fsum, nrows.
  cbn [ncols rows seq map nth fold_left fadd length INR].
  rewrite !fdiv_num by lra.
  repeat (apply (f_equal2 cons); [apply f_equal; lra|]). reflexivity.
Qed.

Lemma find_points_flat_curve_witness :
  find_points (only_bins0 flat_bins) (27/30) 7 = Ok (seq 0 (ncols flat_bins)).
Proof.
  apply (find_points_flat_curve (only_bins0 flat_bins) flat_bins (27/30) 7 (1/2)).
  - reflexivity.
  - rewrite average_flat_bins. repeat constructor.
  - lia.
  - simpl. lia.
  - lra.
Defined.

(** X10.  The ends of the threshold scale (finite curve of at least two
    frames, horizon at least 1): at a threshold of 0 or less every frame is
    flagged, above 1 none is. *)
Theorem find_points_threshold_ends (g : globals) (bins0 : ndarray)
    (threshold : R) (horizon : Z) :
  g_bins0 g = Some bins0 ->
  Forall finite (np_average_axis0 bins0) ->
  (1 <= horizon)%Z ->
  (2 <= ncols bins0)%nat ->
  (threshold <= 0 -> find_points g threshold horizon = Ok (seq 0 (ncols bins0))) /\
  (1 < threshold -> find_points g threshold horizon = Ok []).
Proof.
  intros Hg Hf Hh Hn.
  assert (Hlen : length (np_average_axis0 bins0) = ncols bins0)
    by (unfold np_average_axis0; now rewrite length_map, length_seq).
  rewrite (find_points_finite g bins0 threshold horizon Hg Hf Hh) by lia.
  rewrite Hlen. split; intro Ht; f_equal.
  - apply forallb_filter_id. apply forallb_forall. intros i Hi. apply in_seq in Hi.
    apply Rle_bool_true.
    pose proof (fraction_bounds (np_average_axis0 bins0) horizon i Hh
                  ltac:(lia) ltac:(lia)). lra.
  - apply filter_none. intros i Hi. apply in_seq in Hi.
    destruct (Rle_bool threshold _) eqn:E; [|reflexivity].
    apply Rle_bool_true in E.
    pose proof (fraction_bounds (np_average_axis0 bins0) horizon i Hh
                  ltac:(lia) ltac:(lia)). lra.
Qed.

Lemma find_points_threshold_ends_witness :
  (0 <= 0 -> find_points (only_bins0 step_bins) 0 7 = Ok (seq 0 (ncols step_bins))) /\
  (1 < 0 -> find_points (only_bins0 step_bins) 0 7 = Ok []).
Proof.
  apply (find_points_threshold_ends (only_bins0 step_bins) step_bins 0 7).
  - reflexivity.
  - rewrite average_step_bins. exact finite_step_curve.
  - lia.
  - simpl. lia.
Defined.

Lemma emphasis_step_threshold (test1 : list f64) (t1 t2 : R) (horizon : Z)
    (i : nat) (b1 b2 : bool) :
  t1 <= t2 ->
  emphasis_step test1 t1 horizon i = Ok b1 ->
  emphasis_step test1 t2 horizon i = Ok b2 ->
  b2 = true -> b1 = true.
Proof.
  unfold emphasis_step. intros Ht H1 H2 Hb.
  destruct (_ =? 0)%Z; [discriminate|].
  injection H1 as <-. injection H2 as <-.
  apply Rle_bool_true in Hb. apply Rle_bool_true. lra.
Qed.

(** X11.  Raising the threshold never adds a frame: when [find_points]
    returns for two thresholds (same module state, same horizon of any
    sign), every frame kept at the higher threshold is kept at the lower
    one. *)
Theorem find_points_threshold_antitone (g : globals) (t1 t2 : R) (horizon : Z)
    (keep1 keep2 : list nat) :
  t1 <= t2 ->
  find_points g t1 horizon = Ok keep1 ->
  find_points g t2 horizon = Ok keep2 ->
  incl keep2 keep1.
Proof.
  intros Ht H1 H2. unfold find_points in *.
  destruct (g_bins0 g) as [bins0|]; [|discriminate].
  apply emphasis_loop_result in H1. destruct H1 as (-> & Hok1).
  apply emphasis_loop_result in H2. destruct H2 as (-> & Hok2).
  simpl. intros i Hi. apply filter_In in Hi. destruct Hi as [Hi Hfl].
  apply filter_In. split; [exact Hi|].
  destruct (Hok1 i Hi) as (b1 & E1). destruct (Hok2 i Hi) as (b2 & E2).
  unfold flagged in *. rewrite E1. rewrite E2 in Hfl.
  exact (emphasis_step_threshold _ t1 t2 horizon i b1 b2 Ht E1 E2 Hfl).
Qed.

Lemma find_points_threshold_antitone_witness : incl [0%nat] [0%nat].
Proof.
  apply (find_points_threshold_antitone (only_bins0 step_bins) (1/2) (27/30) 7
           [0%nat] [0%nat]).
  - lra.
  - apply find_points_step; [now right; right | lra].
  - apply find_points_step; [now right; right | lra].
Defined.

(** ** [ratio]: range *)

(** X12.  For non-negative weights that are not both zero [ratio] is a
    number between 0 and 1; for two zero weights it is nan (0/0). *)
Theorem ratio_range (a b : R) :
  0 <= a -> 0 <= b ->
  (0 < a + b -> exists r, ratio (Num a) (Num b) = Num r /\ 0 <= r <= 1) /\
  (a + b = 0 -> ratio (Num a) (Num b) = NaN).
Proof.
  intros Ha Hb. unfold ratio, fadd. split.
  - intro Hs. rewrite fdiv_num by lra. eexists. split; [reflexivity|].
    assert (Hi : 0 < / (a + b)) by (now apply Rinv_0_lt_compat).
    assert (Hone : (a + b) * / (a + b) = 1) by (apply Rinv_r; lra).
    assert (Hai : 0 <= a * / (a + b)) by (apply Rmult_le_pos; lra).
    assert (Hbi : 0 <= b * / (a + b)) by (apply Rmult_le_pos; lra).
    rewrite Rmult_plus_distr_r in Hone.
    unfold Rdiv. set (i := / (a + b)) in *. split; nra.
  - intro Hs. rewrite Hs. apply fdiv_zero.
Qed.

Lemma ratio_range_witness :
  (0 < 1 + 3 -> exists r, ratio (Num 1) (Num 3) = Num r /\ 0 <= r <= 1) /\
  (1 + 3 = 0 -> ratio (Num 1) (Num 3) = NaN).
Proof. apply (ratio_range 1 3); lra. Defined.

(** ** [circle_mode] without colour changing *)

Lemma map_result_map {A B : Type} (f : A -> result B) (h : A -> B) (l : list A) :
  (forall x, In x l -> f x = Ok (h x)) -> map_result f l = Ok (map h l).
Proof.
  induction l as [|x l IH]; intro H; simpl; [reflexivity|].
  rewrite (H x (or_introl eq_refl)). simpl.
  rewrite IH by (intros y Hy; apply H; now right). reflexivity.
Qed.

Lemma frame_loop_plain (random_random : nat -> R) (bins0 : ndarray)
    (bins1 : option ndarray) (points : list nat) (circle_width : Z)
    (h : nat -> list circle) (frames : list nat) :
  (forall i, In i frames -> frame_circles bins0 bins1 circle_width i = Ok (h i)) ->
  forall color calls snapped,
    frame_loop random_random bins0 bins1 false points circle_width frames
               color calls snapped
    = Ok (snapped ++ map (fun i => mk_frame color (h i)) frames).
Proof.
  induction frames as [|i frames IH]; intros H color calls snapped; simpl.
  - now rewrite app_nil_r.
  - rewrite (H i (or_introl eq_refl)). simpl.
    rewrite IH by (intros j Hj; apply H; now right).
    now rewrite <- app_assoc.
Qed.

(** X13.  With one array ([bins1] is None) and colour changing off,
    [circle_mode] always returns: one frame per column of [bins0], each on
    the white background (1, 1, 1) with one centred ring per band, of radius
    half the bin value and colours cycling through the six of line 173.
    Neither the module state nor the random generator is consulted. *)
Theorem circle_mode_mono_frames (random_random : nat -> R) (g : globals)
    (bins0 : ndarray) (circle_width : Z) :
  circle_mode random_random g bins0 None false circle_width
  = Ok (map (fun i => mk_frame (1, 1, 1)
                        (map (mono_ring bins0 circle_width i)
                             (seq 0 (nrows bins0))))
            (seq 0 (ncols bins0))).
Proof.
  unfold circle_mode. cbn [bind].
  rewrite (frame_loop_plain random_random bins0 None [] circle_width
             (fun i => map (mono_ring bins0 circle_width i) (seq 0 (nrows bins0))));
    [reflexivity|].
  intros i Hi. apply in_seq in Hi. unfold frame_circles.
  apply map_result_map. intros j Hj. apply in_seq in Hj.
  rewrite aget_in_range by lia. reflexivity.
Qed.

(** X14.  With two arrays, [bins1] having at least the bands and frames of
    [bins0], and colour changing off, [circle_mode] returns one frame per
    column of [bins0], each with one ring per band placed at
    [ratio(bins0[j, i], bins1[j, i])] with radius a quarter of the sum of
    the two values. *)
Theorem circle_mode_stereo_frames (random_random : nat -> R) (g : globals)
    (bins0 bins1 : ndarray) (circle_width : Z) :
  (nrows bins0 <= nrows bins1)%nat ->
  (ncols bins0 <= ncols bins1)%nat ->
  circle_mode random_random g bins0 (Some bins1) false circle_width
  = Ok (map (fun i => mk_frame (1, 1, 1)
                        (map (stereo_ring bins0 bins1 circle_width i)
                             (seq 0 (nrows bins0))))
            (seq 0 (ncols bins0))).
Proof.
  intros Hr Hc. unfold circle_mode. cbn [bind].
  rewrite (frame_loop_plain random_random bins0 (Some bins1) [] circle_width
             (fun i => map (stereo_ring bins0 bins1 circle_width i)
                           (seq 0 (nrows bins0))));
    [reflexivity|].
  intros i Hi. apply in_seq in Hi. unfold frame_circles.
  apply map_result_map. intros j Hj. apply in_seq in Hj.
  rewrite !aget_in_range by lia. reflexivity.
Qed.

Lemma circle_mode_stereo_frames_witness :
  circle_mode tenths (only_bins0 one_frame) one_frame (Some step_bins) false 15
  = Ok (map (fun i => mk_frame (1, 1, 1)
                        (map (stereo_ring one_frame step_bins 15 i)
                             (seq 0 (nrows one_frame))))
            (seq 0 (ncols one_frame))).
Proof.
  apply (circle_mode_stereo_frames tenths (only_bins0 one_frame) one_frame
           step_bins 15); unfold nrows, one_frame, step_bins; simpl; lia.
Defined.

(** ** [circle_mode] with colour changing *)

(** X15.  With colour changing on, [circle_mode] takes its emphasis points
    from the module-level [bins0], not from the arrays it is passed: while
    that name is unbound it raises NameError, and when the module-level
    array has exactly one frame it raises ZeroDivisionError, in both cases
    before any frame is drawn and whatever arrays were passed. *)
Theorem circle_mode_depends_on_module_state (random_random : nat -> R)
    (g : globals) (bins0 : ndarray) (bins1 : option ndarray) (circle_width : Z) :
  (g_bins0 g = None ->
   circle_mode random_random g bins0 bins1 true circle_width = Raise NameError) /\
  (forall b, g_bins0 g = Some b -> ncols b = 1%nat ->
   circle_mode random_random g bins0 bins1 true circle_width
   = Raise ZeroDivisionError).
Proof.
  split.
  - intro Hg. unfold circle_mode, find_points. now rewrite Hg.
  - intros b Hg Hc. unfold circle_mode, find_points. rewrite Hg.
    assert (Hlen : length (np_average_axis0 b) = 1%nat)
      by (unfold np_average_axis0; now rewrite length_map, length_seq).
    destruct (np_average_axis0 b) as [|x [|y t]]; try discriminate.
    rewrite single_frame_divides_by_zero by lia. reflexivity.
Qed.

Lemma decay_unit (color : rgb) : unit_color color -> unit_color (decay color).
Proof.
  destruct color as [[r g0] b]. unfold unit_color, decay. intros (Hr & Hg & Hb).
  repeat split; lra.
Qed.

Lemma frame_loop_unit (random_random : nat -> R) (bins0 : ndarray)
    (bins1 : option ndarray) (color_changing : bool) (points : list nat)
    (circle_width : Z) (frames : list nat) :
  (forall k, 0 <= random_random k <= 1) ->
  forall color calls snapped out,
    unit_color color ->
    Forall (fun f => unit_color (background f)) snapped ->
    frame_loop random_random bins0 bins1 color_changing points circle_width
               frames color calls snapped = Ok out ->
    Forall (fun f => unit_color (background f)) out.
Proof.
  intro Hrr. induction frames as [|i frames IH];
    intros color calls snapped out Hc Hs H; simpl in H.
  - now injection H as <-.
  - destruct (if color_changing
              then if mem_nat i points
                   then ((random_random calls, random_random (calls + 1)%nat,
                          random_random (calls + 2)%nat), (calls + 3)%nat)
                   else (decay color, calls)
              else (color, calls)) as [color' calls'] eqn:Est.
    assert (Hc' : unit_color color').
    { destruct color_changing; [destruct (mem_nat i points)|];
        injection Est as <- <-;
        [repeat split; apply Hrr | now apply decay_unit | exact Hc]. }
    destruct (frame_circles bins0 bins1 circle_width i) as [cs|e]; [|discriminate].
    simpl in H. apply IH in H; [exact H | exact Hc' |].
    apply Forall_app. split; [exact Hs | now repeat constructor].
Qed.

(** X16.  When every result of [random.random()] lies between 0 and 1, the
    background of every frame [circle_mode] renders is a colour with all
    three components between 0 and 1, with colour changing on or off. *)
Theorem backgrounds_are_colors (random_random : nat -> R) (g : globals)
    (bins0 : ndarray) (bins1 : option ndarray) (color_changing : bool)
    (circle_width : Z) (frames : list frame) :
  (forall k, 0 <= random_random k <= 1) ->
  circle_mode random_random g bins0 bins1 color_changing circle_width = Ok frames ->
  Forall (fun f => unit_color (background f)) frames.
Proof.
  intros Hrr H. unfold circle_mode in H.
  destruct (if color_changing then find_points g (27/30) 7 else Ok [])
    as [points|e]; [|discriminate].
  cbn [bind] in H.
  apply (frame_loop_unit random_random bins0 bins1 color_changing points
           circle_width (seq 0 (ncols bins0)) Hrr (1, 1, 1) 0%nat [] frames);
    [|constructor|exact H].
  unfold unit_color. repeat split; lra.
Qed.

Lemma scale_color_decay (c : R) (color : rgb) :
  decay (scale_color c color) = scale_color (9/10 * c) color.
Proof.
  destruct color as [[r g0] b]. unfold decay, scale_color.
  f_equal; [f_equal|]; ring.
Qed.

(** X17.  With colour changing on, between emphasis points the background
    fades geometrically: if none of the frames [s + 1 .. s + k] is an
    emphasis point, frame [s + k] has the colour of frame [s] multiplied by
    [0.9 ^ k]; and while no emphasis point has occurred, frame [i] has the
    grey level [0.9 ^ (i + 1)]. *)
Theorem background_fades_geometrically (random_random : nat -> R) (g : globals)
    (bins0 : ndarray) (bins1 : option ndarray) (circle_width : Z)
    (points : list nat) (frames : list frame) :
  find_points g (27/30) 7 = Ok points ->
  circle_mode random_random g bins0 bins1 true circle_width = Ok frames ->
  (forall s k, (s + k < ncols bins0)%nat ->
     (forall j, (s < j <= s + k)%nat -> mem_nat j points = false) ->
     background (nth (s + k) frames blank)
     = scale_color ((9/10) ^ k) (background (nth s frames blank))) /\
  (forall i, (i < ncols bins0)%nat ->
     (forall j, (j <= i)%nat -> mem_nat j points = false) ->
     background (nth i frames blank) = scale_color ((9/10) ^ (i + 1)) (1, 1, 1)).
Proof.
  intros Hp H. unfold circle_mode in H. rewrite Hp in H. cbn [bind] in H.
  apply frame_loop_colors in H. destruct H as (new & -> & Hlen & Hcol).
  simpl. split.
  - intros s k. induction k as [|k IH]; intros Hk Hno.
    + rewrite Nat.add_0_r. simpl.
      destruct (background (nth s new blank)) as [[r g0] b].
      unfold scale_color. f_equal; [f_equal|]; ring.
    + replace (s + S k)%nat with (S (s + k)) by lia.
      rewrite (Hcol (S (s + k))) by lia. simpl Nat.add.
      rewrite (Hno (S (s + k))) by lia. cbv beta iota.
      rewrite IH by (try lia; intros j Hj; apply Hno; lia).
      apply scale_color_decay.
  - intro i. induction i as [|i IH]; intros Hi Hno.
    + rewrite (Hcol 0%nat) by lia. simpl Nat.add. rewrite (Hno 0%nat) by lia.
      unfold decay, scale_color. simpl. f_equal; [f_equal|]; ring.
    + rewrite (Hcol (S i)) by lia. simpl Nat.add. rewrite (Hno (S i)) by lia.
      cbv beta iota.
      rewrite IH by (try lia; intros j Hj; apply Hno; lia).
      replace (S i + 1)%nat with (S (i + 1)) by lia.
      exact (scale_color_decay ((9/10) ^ (i + 1)) (1, 1, 1)).
Qed.

Lemma backgrounds_are_colors_witness :
  Forall (fun f => unit_color (background f)) white_frame.
Proof.
  apply (backgrounds_are_colors halves (only_bins0 one_frame) one_frame None
           false 15 white_frame).
  - intro k. unfold halves. lra.
  - reflexivity.
Defined.

Lemma background_fades_geometrically_witness :
  (forall s k, (s + k < ncols step_bins)%nat ->
     (forall j, (s < j <= s + k)%nat -> mem_nat j [0%nat] = false) ->
     background (nth (s + k) step_frames blank)
     = scale_color ((9/10) ^ k) (background (nth s step_frames blank))) /\
  (forall i, (i < ncols step_bins)%nat ->
     (forall j, (j <= i)%nat -> mem_nat j [0%nat] = false) ->
     background (nth i step_frames blank) = scale_color ((9/10) ^ (i + 1)) (1, 1, 1)).
Proof.
  apply (background_fades_geometrically tenths (only_bins0 step_bins) step_bins
           None 15 [0%nat] step_frames).
  - apply find_points_step; [now right; right | lra].
  - unfold circle_mode. rewrite find_points_step by (auto; lra). reflexivity.
Defined.

(** ** [get_bin_average] and the bins of one channel *)

Lemma py_slice_length {A : Type} (l : list A) (s e : Z) :
  (0 <= s)%Z -> (0 <= e)%Z ->
  length (py_slice l s e)
  = Z.to_nat (Z.min e (Z.of_nat (length l)) - Z.min s (Z.of_nat (length l))).
Proof.
  intros Hs He. unfold py_slice, py_slice_index.
  destruct (Z.ltb_spec s 0); [lia|]. destruct (Z.ltb_spec e 0); [lia|].
  rewrite length_firstn, length_skipn. lia.
Qed.

Lemma nonempty_band_finite (column_no : nat) (bin_start bin_end : Z)
    (Zxx : spectrogram) :
  (0 <= bin_start < bin_end)%Z ->
  (bin_start < Z.of_nat (length (sg_rows Zxx)))%Z ->
  exists v, np_abs (get_bin_average column_no bin_start bin_end Zxx) = Num v /\
            0 <= v.
Proof.
  intros Hs Hn. unfold get_bin_average.
  pose proof (py_slice_length (sg_rows Zxx) bin_start bin_end) as Hlen.
  destruct (py_slice (sg_rows Zxx) bin_start bin_end) as [|r t];
    simpl in Hlen; [lia|].
  cbn [map]. set (col := _ :: _).
  destruct (fst (csum col) / INR (length col), snd (csum col) / INR (length col))
    as [re im].
  simpl. eexists. split; [reflexivity | apply sqrt_pos].
Qed.

Lemma empty_band_nan (column_no : nat) (bin_start bin_end : Z) (Zxx : spectrogram) :
  (0 <= bin_start)%Z -> (0 <= bin_end)%Z ->
  (bin_end <= bin_start)%Z \/ (Z.of_nat (length (sg_rows Zxx)) <= bin_start)%Z ->
  np_abs (get_bin_average column_no bin_start bin_end Zxx) = NaN.
Proof.
  intros Hs He Hempty. unfold get_bin_average.
  pose proof (py_slice_length (sg_rows Zxx) bin_start bin_end Hs He) as Hlen.
  destruct (py_slice (sg_rows Zxx) bin_start bin_end) as [|r t]; simpl in Hlen;
    [reflexivity | lia].
Qed.



Lemma normalization_of_nan_entry (bins : ndarray) :
  In NaN (entries bins) -> normalization_and_zooming bins = Ok (nan_like bins).
Proof.
  intro Hx.
  assert (Hlog : In NaN (entries (log_stage bins))).
  { unfold log_stage. rewrite amap_amap, entries_amap. apply in_map_iff.
    exists NaN. split; [reflexivity | exact Hx]. }
  destruct (nan_spreads _ Hlog) as (filled & Hf & Hs & Hz).
  unfold normalization_and_zooming. rewrite Hf. cbn [bind]. rewrite Hs.
  cbn [bind]. rewrite Hz. f_equal. unfold nan_like, log_stage.
  now rewrite !amap_amap.
Qed.

Lemma channel_bins_raw (Zxx : spectrogram) (bin_boundaries : list Z) :
  bin_boundaries <> [] ->
  channel_bins Zxx bin_boundaries
  = normalization_and_zooming (raw_bins Zxx bin_boundaries).
Proof.
  destruct bin_boundaries; [congruence | reflexivity].
Qed.

(** X19.  One empty band is enough to lose the channel: when the
    spectrogram has a column and some pair of consecutive non-negative
    boundaries encloses no row (not increasing, or starting beyond the last
    row), the bins of the channel are returned without any exception and
    every entry of every band is nan. *)
Theorem channel_bins_empty_band (Zxx : spectrogram) (bin_boundaries : list Z)
    (i : nat) :
  (1 <= sg_ncols Zxx)%nat ->
  (i + 1 < length bin_boundaries)%nat ->
  (0 <= nth i bin_boundaries 0)%Z ->
  (0 <= nth (i + 1) bin_boundaries 0)%Z ->
  (nth (i + 1) bin_boundaries 0 <= nth i bin_boundaries 0)%Z \/
  (Z.of_nat (length (sg_rows Zxx)) <= nth i bin_boundaries 0)%Z ->
  exists out,
    channel_bins Zxx bin_boundaries = Ok out /\
    nrows out = (length bin_boundaries - 1)%nat /\
    ncols out = sg_ncols Zxx /\
    Forall (fun x => x = NaN) (entries out).
Proof.
  intros Hc Hi Hs He Hempty.
  rewrite channel_bins_raw by (intro E; rewrite E in Hi; simpl in Hi; lia).
  assert (Hnan : In NaN (entries (raw_bins Zxx bin_boundaries))).
  { unfold raw_bins, entries. cbn [rows]. apply in_concat.
    eexists. split.
    - apply in_map_iff. exists i. split; [reflexivity | apply in_seq; lia].
    - apply in_map_iff. exists 0%nat. split; [|apply in_seq; lia].
      now apply empty_band_nan. }
  rewrite (normalization_of_nan_entry _ Hnan).
  eexists. split; [reflexivity|]. split; [|split].
  - unfold nrows, nan_like, amap, raw_bins; simpl. now rewrite !length_map, length_seq.
  - reflexivity.
  - unfold nan_like. rewrite entries_amap. apply Forall_forall.
    intros x Hx. apply in_map_iff in Hx. now destruct Hx as (y & <- & _).
Qed.

Lemma channel_bins_empty_band_witness :
  exists out,
    channel_bins small_spectrogram [4; 37; 93; 371]%Z = Ok out /\
    nrows out = (length [4; 37; 93; 371]%Z - 1)%nat /\
    ncols out = sg_ncols small_spectrogram /\
    Forall (fun x => x = NaN) (entries out).
Proof.
  apply (channel_bins_empty_band small_spectrogram [4; 37; 93; 371]%Z 0);
    simpl; lia.
Defined.

(** ** [wav_to_bins] and the driver *)

(** X20.  With fewer than two bin boundaries [wav_to_bins] raises
    ValueError once the first channel has been read: an empty list asks
    [np.zeros] for a negative number of rows, and a single boundary gives an
    array without rows, whose minimum does not exist. *)
Theorem wav_to_bins_few_boundaries (read_wav : string -> result (Z * wavdata))
    (stft : Z -> list R -> spectrogram) (filename : string) (mono : Z)
    (bin_boundaries : list Z) (rate : Z) (channels : nat)
    (samples : list (list R)) :
  read_wav filename = Ok (rate, Data2D channels samples) ->
  (1 <= channels)%nat ->
  (length bin_boundaries < 2)%nat ->
  wav_to_bins read_wav stft filename mono bin_boundaries = Raise ValueError.
Proof.
  intros Hrd Hch Hb. unfold wav_to_bins. rewrite Hrd. cbn [bind].
  unfold channel at 1. destruct (Nat.ltb_spec 0 channels); [|lia]. cbn [bind].
  destruct bin_boundaries as [|b0 [|b1 t]]; [reflexivity | reflexivity |].
  simpl in Hb. lia.
Qed.

Lemma wav_to_bins_few_boundaries_witness :
  wav_to_bins stereo_file toy_stft "song.wav" 0 [4%Z] = Raise ValueError.
Proof.
  apply (wav_to_bins_few_boundaries stereo_file toy_stft "song.wav" 0 [4%Z]
           44100 2 [[0; 0]; [1; -1]]).
  - reflexivity.
  - lia.
  - simpl. lia.
Defined.

Lemma frame_loop_length (random_random : nat -> R) (bins0 : ndarray)
    (bins1 : option ndarray) (color_changing : bool) (points : list nat)
    (circle_width : Z) (frames : list nat) :
  forall color calls snapped out,
    frame_loop random_random bins0 bins1 color_changing points circle_width
               frames color calls snapped = Ok out ->
    length out = (length snapped + length frames)%nat.
Proof.
  induction frames as [|i frames IH]; intros color calls snapped out H;
    simpl in H.
  - injection H as <-. simpl. lia.
  - destruct (if color_changing
              then if mem_nat i points
                   then ((random_random calls, random_random (calls + 1)%nat,
                          random_random (calls + 2)%nat), (calls + 3)%nat)
                   else (decay color, calls)
              else (color, calls)) as [color' calls'].
    destruct (frame_circles bins0 bins1 circle_width i) as [cs|e]; [|discriminate].
    simpl in H. apply IH in H. rewrite H, length_app. simpl. lia.
Qed.

Lemma circle_mode_length (random_random : nat -> R) (g : globals)
    (bins0 : ndarray) (bins1 : option ndarray) (color_changing : bool)
    (circle_width : Z) (frames : list frame) :
  circle_mode random_random g bins0 bins1 color_changing circle_width = Ok frames ->
  length frames = ncols bins0.
Proof.
  unfold circle_mode. intro H.
  destruct (if color_changing then find_points g (27/30) 7 else Ok [])
    as [points|e]; [|discriminate].
  cbn [bind] in H. apply frame_loop_length in H. rewrite H, length_seq.
  reflexivity.
Qed.

Lemma is_flag_cases (s : string) :
  is_flag s = true -> s = "0"%string \/ s = "1"%string.
Proof.
  unfold is_flag. intro H. apply orb_true_iff in H.
  destruct H as [H|H]; apply String.eqb_eq in H; auto.
Qed.

(** The run of an accepted command line: the checks pass and the work of
    lines 231-241 remains. *)
Lemma main_accepted (read_wav : string -> result (Z * wavdata))
    (stft : Z -> list R -> spectrogram) (py_int : string -> result Z)
    (random_random : nat -> R) (args : list string) :
  accepted args = true ->
  main read_wav stft py_int random_random args
  = (circle_width <- (if (length args =? 6)%nat then Ok 15%Z
                      else py_int (arg args 6)) ;;
     v <- wav_to_bins read_wav stft (arg args 1) (flag_value (arg args 2))
                      [4; 37; 93; 371]%Z ;;
     u <- unpack2 v ;;
     match u with
     | (Arr2 bins0, Arr2 bins1) =>
         circle_mode random_random
           (mk_globals (Some bins0) (Some bins1) (Some (flag_value (arg args 2)))
                       (Some (flag_value (arg args 5))) (Some circle_width))
           bins0 (Some bins1) (flag_value (arg args 5) =? 1)%Z circle_width
     | _ => Raise IndexError
     end).
Proof.
  unfold accepted, main. intro H.
  repeat (apply andb_true_iff in H; destruct H as [H ?]).
  repeat match goal with
         | Hb : ?b = true |- context [py_assert ?b] => rewrite Hb
         end.
  reflexivity.
Qed.

Lemma main_rejected (read_wav : string -> result (Z * wavdata))
    (stft : Z -> list R -> spectrogram) (py_int : string -> result Z)
    (random_random : nat -> R) (args : list string) :
  accepted args = false ->
  main read_wav stft py_int random_random args = Raise AssertionError.
Proof.
  unfold accepted, main. intro H.
  repeat match goal with
         | |- context [py_assert ?b] =>
             destruct b; cbn [py_assert bind andb] in *; [|reflexivity]
         end.
  discriminate.
Qed.

(** X21.  A command line that fails one of the checks of lines 225-230
    (argument count, the [.wav] and [.mp4] endings, the two 0/1 flags) ends
    in AssertionError, whatever the file holds: nothing is read, parsed or
    rendered. *)
Theorem main_rejects_command_line (read_wav : string -> result (Z * wavdata))
    (stft : Z -> list R -> spectrogram) (py_int : string -> result Z)
    (random_random : nat -> R) (args : list string) :
  accepted args = false ->
  main read_wav stft py_int random_random args = Raise AssertionError.
Proof. apply main_rejected. Qed.

Lemma main_rejects_command_line_witness :
  main stereo_file toy_stft no_int tenths
       ["audio_visualization.py"; "song.mp3"; "0"; "silent.mp4"; "final.mp4"; "0"]%string
  = Raise AssertionError.
Proof.
  apply (main_rejects_command_line stereo_file toy_stft no_int tenths
           ["audio_visualization.py"; "song.mp3"; "0"; "silent.mp4"; "final.mp4"; "0"]%string).
  reflexivity.
Defined.

Lemma accepted_mono_flag (args : list string) :
  accepted args = true -> is_flag (arg args 2) = true.
Proof.
  unfold accepted. intro H.
  repeat (apply andb_true_iff in H; destruct H as [H ?]). assumption.
Qed.

Lemma wav_to_bins_stereo_value (read_wav : string -> result (Z * wavdata))
    (stft : Z -> list R -> spectrogram) (filename : string) (v : bins_value) :
  wav_to_bins read_wav stft filename 0 [4; 37; 93; 371]%Z = Ok v ->
  exists rate channels samples bins0 bins1,
    read_wav filename = Ok (rate, Data2D channels samples) /\
    (2 <= channels)%nat /\ v = Pair bins0 bins1 /\
    ncols bins0 = (sg_ncols (stft rate (map (fun s => nth 0 s 0%R) samples)) + 1)%nat.
Proof.
  intro H. unfold wav_to_bins in H.
  destruct (read_wav filename) as [[rate data]|e]; [|discriminate].
  cbn [bind] in H. destruct data as [s|channels samples]; [discriminate|].
  unfold channel in H.
  destruct (Nat.ltb_spec 0 channels); [|discriminate]. cbn [bind] in H.
  destruct (channel_bins_shape
              (pad_and_flip (stft rate (map (fun s => nth 0 s 0) samples)))
              [4; 37; 93; 371]%Z (pad_and_flip_ncols _))
    as (a0 & E0 & _ & Hc0 & _); [simpl; lia|].
  rewrite E0 in H. cbn [bind Z.eqb] in H.
  destruct (Nat.ltb_spec 1 channels); [|discriminate]. cbn [bind] in H.
  destruct (channel_bins _ _) as [a1|e] in H; [|discriminate].
  cbn [bind] in H. injection H as <-.
  exists rate, channels, samples, a0, a1. repeat split; try lia.
  rewrite Hc0. reflexivity.
Qed.

(** X22.  What a rendered run implies: if [main] returns frames, the command
    line passed every check, its mono flag is "0", the file decoded to a
    two-dimensional array of at least two channels, and the number of
    frames is the number of STFT columns of the first channel plus one (the
    zero column of line 45). *)
Theorem main_renders_only_stereo (read_wav : string -> result (Z * wavdata))
    (stft : Z -> list R -> spectrogram) (py_int : string -> result Z)
    (random_random : nat -> R) (args : list string) (frames : list frame) :
  main read_wav stft py_int random_random args = Ok frames ->
  accepted args = true /\ arg args 2 = "0"%string /\
  exists rate channels samples,
    read_wav (arg args 1) = Ok (rate, Data2D channels samples) /\
    (2 <= channels)%nat /\
    length frames
    = (sg_ncols (stft rate (map (fun s => nth 0 s 0%R) samples)) + 1)%nat.
Proof.
  intro H. destruct (accepted args) eqn:Ha.
  2:{ rewrite main_rejected in H by exact Ha. discriminate. }
  split; [reflexivity|]. rewrite main_accepted in H by exact Ha.
  destruct (if (length args =? 6)%nat then Ok 15%Z else py_int (arg args 6))
    as [w|e]; [|discriminate].
  cbn [bind] in H.
  destruct (is_flag_cases _ (accepted_mono_flag args Ha)) as [Hf|Hf];
    rewrite Hf in H.
  - change (flag_value "0") with 0%Z in H.
    destruct (wav_to_bins read_wav stft (arg args 1) 0 [4; 37; 93; 371]%Z)
      as [v|e] eqn:Ev; [|discriminate].
    cbn [bind] in H.
    destruct (wav_to_bins_stereo_value _ _ _ _ Ev)
      as (rate & channels & samples & b0 & b1 & Hrd & Hch & -> & Hc).
    cbn [unpack2 bind] in H. apply circle_mode_length in H.
    split; [exact Hf|]. exists rate, channels, samples.
    repeat split; try assumption. now rewrite H.
  - change (flag_value "1") with 1%Z in H.
    destruct (wav_to_bins read_wav stft (arg args 1) 1 [4; 37; 93; 371]%Z)
      as [v|e] eqn:Ev; [|discriminate].
    cbn [bind] in H.
    destruct (wav_to_bins_mono_value _ _ _ _ Ev) as (a & -> & Hr).
    rewrite (unpack2_three_rows a Hr) in H. discriminate.
Qed.

Lemma main_renders_only_stereo_witness :
  accepted stereo_args = true /\ arg stereo_args 2 = "0"%string /\
  exists rate channels samples,
    stereo_file (arg stereo_args 1) = Ok (rate, Data2D channels samples) /\
    (2 <= channels)%nat /\
    length nan_frames
    = (sg_ncols (rowless_stft rate (map (fun s => nth 0 s 0%R) samples)) + 1)%nat.
Proof.
  apply (main_renders_only_stereo stereo_file rowless_stft no_int tenths
           stereo_args nan_frames).
  reflexivity.
Defined.

Lemma find_points_returns (g : globals) (bins0 : ndarray) (threshold : R)
    (horizon : Z) :
  g_bins0 g = Some bins0 -> (1 <= horizon)%Z -> (2 <= ncols bins0)%nat ->
  exists keep, find_points g threshold horizon = Ok keep.
Proof.
  intros Hg Hh Hn. unfold find_points. rewrite Hg.
  assert (Hlen : length (np_average_axis0 bins0) = ncols bins0)
    by (unfold np_average_axis0; now rewrite length_map, length_seq).
  rewrite emphasis_loop_ok; [eauto|].
  intros i Hi. apply in_seq in Hi. apply emphasis_step_ok; lia.
Qed.

Lemma circle_mode_returns (random_random : nat -> R) (g : globals)
    (bins0 bins1 : ndarray) (color_changing : bool) (circle_width : Z) :
  g_bins0 g = Some bins0 ->
  (2 <= ncols bins0)%nat ->
  (nrows bins0 <= nrows bins1)%nat -> (ncols bins0 <= ncols bins1)%nat ->
  exists frames,
    circle_mode random_random g bins0 (Some bins1) color_changing circle_width
    = Ok frames /\
    length frames = ncols bins0.
Proof.
  intros Hg Hn Hr Hc. unfold circle_mode.
  assert (Hp : exists points,
             (if color_changing then find_points g (27/30) 7 else Ok []) = Ok points).
  { destruct color_changing; [|eauto].
    apply (find_points_returns g bins0); [exact Hg | lia | exact Hn]. }
  destruct Hp as (points & ->). cbn [bind].
  destruct (frame_loop_ok random_random bins0 (Some bins1) color_changing
              points circle_width (seq 0 (ncols bins0))) with
    (color := (1, 1, 1)) (calls := 0%nat) (snapped := @nil frame)
    as (out & Hout & Hlen).
  - intros i Hi. apply in_seq in Hi. apply frame_circles_ok; lia.
  - exists out. split; [exact Hout|]. rewrite Hlen, length_seq. reflexivity.
Qed.

(** X23.  A stereo run is rendered: for an accepted command line with mono
    flag "0" (and a circle width that parses, when given), a file of at
    least two channels, and a transform that gives both channels the same
    number of columns, at least one, [main] returns the frames, one per
    STFT column plus one, with colour changing on or off. *)
Theorem main_stereo_renders (read_wav : string -> result (Z * wavdata))
    (stft : Z -> list R -> spectrogram) (py_int : string -> result Z)
    (random_random : nat -> R) (args : list string) (rate : Z)
    (channels : nat) (samples : list (list R)) :
  accepted args = true ->
  arg args 2 = "0"%string ->
  (length args = 6%nat \/ exists w, py_int (arg args 6) = Ok w) ->
  read_wav (arg args 1) = Ok (rate, Data2D channels samples) ->
  (2 <= channels)%nat ->
  (1 <= sg_ncols (stft rate (map (fun s => nth 0 s 0%R) samples)))%nat ->
  sg_ncols (stft rate (map (fun s => nth 1 s 0) samples))
  = sg_ncols (stft rate (map (fun s => nth 0 s 0) samples)) ->
  exists frames,
    main read_wav stft py_int random_random args = Ok frames /\
    length frames
    = (sg_ncols (stft rate (map (fun s => nth 0 s 0%R) samples)) + 1)%nat.
Proof.
  intros Ha Hf Hw Hrd Hch Hc0 Hc1. rewrite main_accepted by exact Ha.
  assert (Hcw : exists w, (if (length args =? 6)%nat then Ok 15%Z
                           else py_int (arg args 6)) = Ok w).
  { destruct Hw as [->|(w & Hw)]; [simpl; eauto|].
    destruct (length args =? 6)%nat; eauto. }
  destruct Hcw as (w & ->). cbn [bind]. rewrite Hf.
  change (flag_value "0") with 0%Z.
  unfold wav_to_bins. rewrite Hrd. cbn [bind]. unfold channel.
  destruct (Nat.ltb_spec 0 channels); [|lia]. cbn [bind].
  destruct (channel_bins_shape
              (pad_and_flip (stft rate (map (fun s => nth 0 s 0) samples)))
              [4; 37; 93; 371]%Z (pad_and_flip_ncols _))
    as (a0 & -> & Hr0 & Hn0 & _); [simpl; lia|].
  cbn [bind Z.eqb]. destruct (Nat.ltb_spec 1 channels); [|lia]. cbn [bind].
  destruct (channel_bins_shape
              (pad_and_flip (stft rate (map (fun s => nth 1 s 0) samples)))
              [4; 37; 93; 371]%Z (pad_and_flip_ncols _))
    as (a1 & -> & Hr1 & Hn1 & _); [simpl; lia|].
  cbn [bind unpack2]. simpl in Hn0, Hn1.
  destruct (circle_mode_returns random_random
              (mk_globals (Some a0) (Some a1) (Some 0%Z)
                          (Some (flag_value (arg args 5))) (Some w))
              a0 a1 (flag_value (arg args 5) =? 1)%Z w)
    as (frames & Hfr & Hlen); try reflexivity; try lia.
  exists frames. split; [exact Hfr|]. rewrite Hlen, Hn0. reflexivity.
Qed.

Lemma main_stereo_renders_witness :
  exists frames,
    main stereo_file toy_stft no_int tenths stereo_args = Ok frames /\
    length frames = 3%nat.
Proof.
  apply (main_stereo_renders stereo_file toy_stft no_int tenths stereo_args
           44100 2 [[0; 0]; [1; -1]]).
  - reflexivity.
  - reflexivity.
  - left. reflexivity.
  - reflexivity.
  - lia.
  - simpl. lia.
  - reflexivity.
Defined.

(** X24.  A file with a single channel is never processed: its samples are
    one-dimensional, [data[:, 0]] raises IndexError, and that is how every
    accepted command line ends, whatever its mono flag. *)
Theorem main_single_channel_file (read_wav : string -> result (Z * wavdata))
    (stft : Z -> list R -> spectrogram) (py_int : string -> result Z)
    (random_random : nat -> R) (args : list string) (rate : Z)
    (samples : list R) :
  accepted args = true ->
  (length args = 6%nat \/ exists w, py_int (arg args 6) = Ok w) ->
  read_wav (arg args 1) = Ok (rate, Data1D samples) ->
  main read_wav stft py_int random_random args = Raise IndexError.
Proof.
  intros Ha Hw Hrd. rewrite main_accepted by exact Ha.
  assert (Hcw : exists w, (if (length args =? 6)%nat then Ok 15%Z
                           else py_int (arg args 6)) = Ok w).
  { destruct Hw as [->|(w & Hw)]; [simpl; eauto|].
    destruct (length args =? 6)%nat; eauto. }
  destruct Hcw as (w & ->). cbn [bind].
  unfold wav_to_bins. rewrite Hrd. reflexivity.
Qed.

Lemma main_single_channel_file_witness :
  main single_channel_file toy_stft no_int tenths stereo_args = Raise IndexError.
Proof.
  apply (main_single_channel_file single_channel_file toy_stft no_int tenths
           stereo_args 44100 [0; 1]).
  - reflexivity.
  - left. reflexivity.
  - reflexivity.
Defined.

(** ** The padded column and silence *)

Lemma in_py_slice {A : Type} (x : A) (l : list A) (s e : Z) :
  In x (py_slice l s e) -> In x l.
Proof.
  unfold py_slice. intro H.
  set (a := Z.to_nat (py_slice_index (Z.of_nat (length l)) s)) in *.
  set (k := Z.to_nat _) in H.
  rewrite <- (firstn_skipn a l). apply in_or_app. right.
  rewrite <- (firstn_skipn k (skipn a l)). apply in_or_app. now left.
Qed.

Lemma csum_zero (col : list complex) :
  (forall z, In z col -> z = (0, 0)) -> csum col = (0, 0).
Proof.
  unfold csum. intro H.
  assert (G : forall acc, fold_left (fun acc z => (fst acc + fst z, snd acc + snd z))
                                    col acc = acc).
  { induction col as [|z col IH]; intro acc; simpl; [reflexivity|].
    rewrite (H z (or_introl eq_refl)). simpl. rewrite !Rplus_0_r.
    rewrite <- surjective_pairing. apply IH. intros y Hy. apply H. now right. }
  apply G.
Qed.

(** A band without energy in one column has magnitude 0 there. *)
Lemma zero_band_magnitude (column_no : nat) (bin_start bin_end : Z)
    (Zxx : spectrogram) :
  (0 <= bin_start < bin_end)%Z ->
  (bin_start < Z.of_nat (length (sg_rows Zxx)))%Z ->
  (forall r, In r (sg_rows Zxx) -> nth column_no r (0, 0) = (0, 0)) ->
  np_abs (get_bin_average column_no bin_start bin_end Zxx) = Num 0.
Proof.
  intros Hs Hn Hz. unfold get_bin_average.
  pose proof (py_slice_length (sg_rows Zxx) bin_start bin_end) as Hlen.
  assert (Hin : forall r, In r (py_slice (sg_rows Zxx) bin_start bin_end) ->
                          In r (sg_rows Zxx)) by (intro r; apply in_py_slice).
  destruct (py_slice (sg_rows Zxx) bin_start bin_end) as [|r t];
    simpl in Hlen; [lia|].
  cbn [map]. set (col := _ :: _).
  assert (Hc : csum col = (0, 0)).
  { apply csum_zero. intros z Hzc. unfold col in Hzc.
    change (In z (map (fun r => nth column_no r (0, 0)) (r :: t))) in Hzc.
    apply in_map_iff in Hzc. destruct Hzc as (r' & <- & Hr'). apply Hz, Hin, Hr'. }
  rewrite Hc. cbn [fst snd np_abs]. f_equal.
  match goal with
  | |- sqrt ?e = 0 => replace e with 0 by (unfold Rdiv; ring)
  end.
  apply sqrt_0.
Qed.

Lemma pad_and_flip_last_column (Zxx : spectrogram) (r : list complex) :
  rectangular Zxx -> In r (sg_rows (pad_and_flip Zxx)) ->
  nth (sg_ncols Zxx) r (0, 0) = (0, 0).
Proof.
  unfold rectangular, pad_and_flip. simpl. intros Hw Hr.
  apply in_rev in Hr. apply in_map_iff in Hr. destruct Hr as (r0 & <- & Hr0).
  rewrite Forall_forall in Hw. rewrite <- (Hw r0 Hr0).
  apply nth_middle.
Qed.

Lemma pad_and_flip_rows (Zxx : spectrogram) :
  length (sg_rows (pad_and_flip Zxx)) = length (sg_rows Zxx).
Proof. unfold pad_and_flip; simpl. now rewrite length_rev, length_map. Qed.

Lemma raw_bins_finite (Zxx : spectrogram) (bin_boundaries : list Z) :
  bands_in_range Zxx bin_boundaries -> nonneg_finite (raw_bins Zxx bin_boundaries).
Proof.
  intro Hb. unfold nonneg_finite, raw_bins, entries. cbn [rows].
  apply Forall_forall. intros x Hx. apply in_concat in Hx.
  destruct Hx as (row & Hrow & Hx). apply in_map_iff in Hrow.
  destruct Hrow as (i & <- & Hi). apply in_seq in Hi.
  apply in_map_iff in Hx. destruct Hx as (c & <- & _).
  destruct (Hb i) as [H1 H2]; [lia|].
  now apply nonempty_band_finite.
Qed.

Lemma entry_amap (f : f64 -> f64) (a : ndarray) (j i : nat) :
  f NaN = NaN -> entry (amap f a) j i = f (entry a j i).
Proof.
  intro Hf. unfold entry, amap. cbn [rows].
  change (@nil f64) with (map f []) at 1. rewrite map_nth.
  rewrite <- Hf at 1. apply map_nth.
Qed.

Lemma raw_bins_entry (Zxx : spectrogram) (bin_boundaries : list Z) (j c : nat) :
  (j + 1 < length bin_boundaries)%nat -> (c < sg_ncols Zxx)%nat ->
  entry (raw_bins Zxx bin_boundaries) j c
  = np_abs (get_bin_average c (nth j bin_boundaries 0%Z)
                            (nth (j + 1) bin_boundaries 0%Z) Zxx).
Proof.
  intros Hj Hc. unfold entry, raw_bins. cbn [rows].
  rewrite (nth_indep _ [] (map (fun column =>
             np_abs (get_bin_average column (nth 0 bin_boundaries 0%Z)
                                     (nth (0 + 1) bin_boundaries 0%Z) Zxx))
             (seq 0 (sg_ncols Zxx))))
    by (rewrite length_map, length_seq; lia).
  rewrite (map_nth (fun i => map (fun column =>
             np_abs (get_bin_average column (nth i bin_boundaries 0%Z)
                                     (nth (i + 1) bin_boundaries 0%Z) Zxx))
             (seq 0 (sg_ncols Zxx)))).
  rewrite seq_nth by lia. simpl Nat.add.
  rewrite (nth_indep _ NaN (np_abs (get_bin_average 0 (nth j bin_boundaries 0%Z)
                                      (nth (j + 1) bin_boundaries 0%Z) Zxx)))
    by (rewrite length_map, length_seq; lia).
  rewrite (map_nth (fun column =>
             np_abs (get_bin_average column (nth j bin_boundaries 0%Z)
                                     (nth (j + 1) bin_boundaries 0%Z) Zxx))).
  rewrite seq_nth by lia. reflexivity.
Qed.

Lemma raw_bins_nonempty (Zxx : spectrogram) (bin_boundaries : list Z) :
  (1 <= sg_ncols Zxx)%nat -> (2 <= length bin_boundaries)%nat ->
  entries (raw_bins Zxx bin_boundaries) <> [].
Proof.
  intros Hc Hb. unfold raw_bins, entries. cbn [rows].
  destruct (length bin_boundaries - 1)%nat as [|k] eqn:Ek; [lia|].
  destruct (sg_ncols Zxx) as [|c]; [lia|]. simpl. discriminate.
Qed.

Lemma bands_in_range_padded (Zxx : spectrogram) (bin_boundaries : list Z) :
  bands_in_range Zxx bin_boundaries ->
  bands_in_range (pad_and_flip Zxx) bin_boundaries.
Proof.
  unfold bands_in_range. intros H i Hi. rewrite pad_and_flip_rows. now apply H.
Qed.

(** X25.  The last frame of a channel is always at the floor: the zero
    column appended in line 45 gives every band the magnitude 0 there, so
    whenever the bands are in range and the normalisation is not degenerate
    (two different values left by line 90), every band of the returned
    array is 0 in its last column. *)
Theorem last_frame_is_zero (Zxx : spectrogram) (bin_boundaries : list Z)
    (filled : ndarray) :
  rectangular Zxx ->
  bands_in_range Zxx bin_boundaries ->
  fill_stage (log_stage (raw_bins (pad_and_flip Zxx) bin_boundaries)) = Ok filled ->
  (exists x y, In x (entries filled) /\ In y (entries filled) /\ x <> y) ->
  exists out,
    channel_bins (pad_and_flip Zxx) bin_boundaries = Ok out /\
    forall j, (j + 1 < length bin_boundaries)%nat ->
              entry out j (sg_ncols Zxx) = Num 0.
Proof.
  intros Hrect Hb Hfill Hd.
  pose proof (bands_in_range_padded _ _ Hb) as Hb'.
  destruct (normalization_formula _ _ (raw_bins_finite _ _ Hb') Hfill Hd)
    as (F & Hout & HF0 & _).
  assert (Hne : bin_boundaries <> []).
  { intros ->. unfold fill_stage, amin, log_stage, raw_bins in Hfill.
    simpl in Hfill. discriminate. }
  rewrite channel_bins_raw by exact Hne. rewrite Hout.
  eexists. split; [reflexivity|]. intros j Hj.
  rewrite entry_amap by reflexivity.
  rewrite raw_bins_entry by (simpl; lia).
  destruct (Hb' j Hj) as [H1 H2].
  rewrite zero_band_magnitude; try assumption.
  - simpl. now rewrite HF0.
  - intros r Hr. now apply pad_and_flip_last_column.
Qed.

Lemma padded_silence (Zxx : spectrogram) (r : list complex) (c : nat) :
  (forall r c, In r (sg_rows Zxx) -> nth c r (0, 0) = (0, 0)) ->
  In r (sg_rows (pad_and_flip Zxx)) -> nth c r (0, 0) = (0, 0).
Proof.
  unfold pad_and_flip. simpl. intros Hz Hr.
  apply in_rev in Hr. apply in_map_iff in Hr. destruct Hr as (r0 & <- & Hr0).
  destruct (Nat.lt_ge_cases c (length r0)) as [Hlt|Hge].
  - rewrite app_nth1 by exact Hlt. now apply Hz.
  - rewrite app_nth2 by exact Hge.
    destruct (c - length r0)%nat as [|[|k]]; reflexivity.
Qed.

(** X26.  Silence gives nan, not zeros: for a spectrogram whose values are
    all zero, bands in range and at least two boundaries, the bins of the
    channel are returned without any exception and every entry is nan. *)
Theorem silent_channel_is_nan (Zxx : spectrogram) (bin_boundaries : list Z) :
  (forall r c, In r (sg_rows Zxx) -> nth c r (0, 0) = (0, 0)) ->
  bands_in_range Zxx bin_boundaries ->
  (2 <= length bin_boundaries)%nat ->
  exists out,
    channel_bins (pad_and_flip Zxx) bin_boundaries = Ok out /\
    nrows out = (length bin_boundaries - 1)%nat /\
    ncols out = (sg_ncols Zxx + 1)%nat /\
    Forall (fun x => x = NaN) (entries out).
Proof.
  intros Hz Hb Hlen.
  pose proof (bands_in_range_padded _ _ Hb) as Hb'.
  rewrite channel_bins_raw by (intros ->; simpl in Hlen; lia).
  set (raw := raw_bins (pad_and_flip Zxx) bin_boundaries).
  assert (Hraw : Forall (fun x => x = Num 0 \/ x = Num 1 \/ x = Num 0) (entries raw)).
  { unfold raw, raw_bins, entries. cbn [rows].
    apply Forall_forall. intros x Hx. apply in_concat in Hx.
    destruct Hx as (row & Hrow & Hx). apply in_map_iff in Hrow.
    destruct Hrow as (i & <- & Hi). apply in_seq in Hi.
    apply in_map_iff in Hx. destruct Hx as (c & <- & _).
    destruct (Hb' i) as [H1 H2]; [lia|]. left.
    apply zero_band_magnitude; try assumption.
    intros r Hr. now apply (padded_silence Zxx). }
  rewrite (degenerate_levels_nan raw 0); [| | lra | exact Hraw].
  - eexists. split; [reflexivity|]. split; [|split].
    + unfold nrows, nan_like, amap, raw, raw_bins; simpl.
      now rewrite !length_map, length_seq.
    + reflexivity.
    + unfold nan_like. rewrite entries_amap. apply Forall_forall.
      intros x Hx. apply in_map_iff in Hx. now destruct Hx as (y & <- & _).
  - apply raw_bins_nonempty; [apply pad_and_flip_ncols | exact Hlen].
Qed.

Lemma silent_channel_is_nan_witness :
  exists out,
    channel_bins (pad_and_flip silent_spectrogram) [0; 1; 2]%Z = Ok out /\
    nrows out = (length [0; 1; 2]%Z - 1)%nat /\
    ncols out = (sg_ncols silent_spectrogram + 1)%nat /\
    Forall (fun x => x = NaN) (entries out).
Proof.
  apply (silent_channel_is_nan silent_spectrogram [0; 1; 2]%Z).
  - intros r c [<-|[<-|[]]]; destruct c as [|[|[|c]]]; reflexivity.
  - intros i Hi. simpl in Hi.
    destruct i as [|[|i]]; simpl; lia.
  - simpl. lia.
Defined.

Lemma raw_bins_tone :
  raw_bins (pad_and_flip tone_spectrogram) [0; 1; 2]%Z
  = mk_ndarray 2 [[Num 0; Num 0]; [Num 2; Num 0]].
Proof.
  unfold raw_bins, pad_and_flip, tone_spectrogram, get_bin_average, csum.
  simpl. f_equal.
  repeat (apply (f_equal2 cons)); try reflexivity;
    repeat (apply (f_equal2 cons)); try reflexivity; apply f_equal.
  - match goal with |- sqrt ?e = 0 => replace e with 0 by lra end. apply sqrt_0.
  - match goal with |- sqrt ?e = 0 => replace e with 0 by lra end. apply sqrt_0.
  - match goal with |- sqrt ?e = 2 => replace e with (2 * 2) by lra end.
    apply sqrt_square. lra.
  - match goal with |- sqrt ?e = 0 => replace e with 0 by lra end. apply sqrt_0.
Qed.

Lemma fill_stage_tone :
  fill_stage (log_stage (raw_bins (pad_and_flip tone_spectrogram) [0; 1; 2]%Z))
  = Ok (mk_ndarray 2 [[Num 0; Num 0]; [Num (ln 2); Num 0]]).
Proof.
  pose proof ln_two_pos as Hln. rewrite raw_bins_tone.
  assert (Hlog : log_stage (mk_ndarray 2 [[Num 0; Num 0]; [Num 2; Num 0]])
                 = mk_ndarray 2 [[Num 0; Num 0]; [Num (ln 2); Num 0]]).
  { unfold log_stage, amap, where_set, is_zero, feqb, np_log; simpl.
    destruct (Req_dec_T 0 0); [|lra]. destruct (Req_dec_T 2 0); [lra|].
    destruct (Rlt_dec 0 1); [|lra]. destruct (Rlt_dec 0 2); [|lra].
    now rewrite ln_1. }
  rewrite Hlog. unfold fill_stage.
  rewrite (amin_char _ [0; 0; ln 2; 0] 0); [| reflexivity | now left |].
  - unfold amap, where_set, is_zero, feqb; simpl.
    destruct (Req_dec_T 0 0); [|lra]. destruct (Req_dec_T (ln 2) 0); [lra|].
    reflexivity.
  - intros y [<-|[<-|[<-|[<-|[]]]]]; lra.
Qed.

Lemma last_frame_is_zero_witness :
  exists out,
    channel_bins (pad_and_flip tone_spectrogram) [0; 1; 2]%Z = Ok out /\
    forall j, (j + 1 < length [0; 1; 2]%Z)%nat ->
              entry out j (sg_ncols tone_spectrogram) = Num 0.
Proof.
  apply (last_frame_is_zero tone_spectrogram [0; 1; 2]%Z
           (mk_ndarray 2 [[Num 0; Num 0]; [Num (ln 2); Num 0]])).
  - repeat constructor.
  - intros i Hi. simpl in Hi. destruct i as [|[|i]]; simpl; lia.
  - exact fill_stage_tone.
  - exists (Num 0), (Num (ln 2)). simpl. repeat split; auto.
    intro H. injection H as H. pose proof ln_two_pos. lra.
Defined.
